(** * Anime_Taimu: the time calculation engine (scripts/time-calculator.js)

    A shallow embedding of the calculation engine and of the calculator
    session built on it, and the properties of the specification settled
    against it.

    Modelling decisions, once and for all:

    - A JavaScript number is [number]: NaN, the two infinities, or a finite
      value held as a rational.  Every binary64 value is such a rational, so
      every input the program can receive is represented.  A product, a sum
      and a quotient are the exact ones rounded as binary64 rounds them
      ([Num.binary64]: to the nearest value, a tie to the even significand,
      gradual underflow, overflow to infinity); [Math.round], [Math.floor]
      and [%] are exact, as they are on binary64 values; a number is printed
      as Number::toString prints it.  -0 is identified with 0, from which no
      operation of this program tells it apart.
    - The values of properties are the primitives undefined, null, booleans,
      numbers and strings ([prim]); symbols, bigints and nested objects are
      left out.  A string carries, next to its characters, the number that
      ToNumber yields for it, so that the numeric-string grammar of
      ECMA-262 is not re-implemented: results quantified over strings hold
      whatever that number is.
    - An object is a finite map from property names to primitives; reading
      an absent property yields undefined.
    - A function value is a callback: an identity (what [===] compares) and
      a body that, for the arguments of a call, says whether the call throws.
      Callbacks are opaque: they do not call back into the session and do not
      write to the options object they are handed. *)

From Stdlib Require Import QArith Qround Qabs Qpower Lqa Ascii String.
From stdpp Require Import gmap strings list pretty.

Local Open Scope string_scope.
Local Open Scope list_scope.

(** ** Numbers *)

Inductive number : Type :=
  | NaN
  | PosInf
  | NegInf
  | Fin (q : Q).

Arguments Fin q%_Q.

Module Num.

(** [a < b]; false as soon as one side is NaN. *)
Definition lt (a b : number) : bool :=
  match a, b with
  | NaN, _ | _, NaN => false
  | Fin x, Fin y => match (x ?= y)%Q with Lt => true | _ => false end
  | NegInf, NegInf => false
  | NegInf, _ => true
  | _, NegInf => false
  | PosInf, _ => false
  | Fin _, PosInf => true
  end.

(** [a > b] is [b < a]. *)
Definition gt (a b : number) : bool := lt b a.

(** [a <= b]: not [b < a], and false as soon as one side is NaN. *)
Definition le (a b : number) : bool :=
  match a, b with
  | NaN, _ | _, NaN => false
  | _, _ => negb (lt b a)
  end.

(** [a === b] on two numbers: NaN equals nothing. *)
Definition strict_eq (a b : number) : bool :=
  match a, b with
  | Fin x, Fin y => Qeq_bool x y
  | PosInf, PosInf | NegInf, NegInf => true
  | _, _ => false
  end.

Definition opp (a : number) : number :=
  match a with
  | NaN => NaN
  | PosInf => NegInf
  | NegInf => PosInf
  | Fin x => Fin (- x)
  end.

(** Infinity * b. *)
Definition inf_mul (b : number) : number :=
  match b with
  | NaN => NaN
  | PosInf => PosInf
  | NegInf => NegInf
  | Fin y => match (y ?= 0)%Q with Gt => PosInf | Lt => NegInf | Eq => NaN end
  end.

(** The binade of [q > 0]: the [e] with [2^e <= q < 2^(e+1)]. *)
Definition ilog2 (q : Q) : Z :=
  let c := (Z.log2 (Qnum q) - Z.log2 (Zpos (Qden q)))%Z in
  if Qle_bool (2 ^ c)%Q q then c else (c - 1)%Z.

(** The nearest integer, a tie going to the even one. *)
Definition round_half_even (s : Q) : Z :=
  let f := Qfloor s in
  match (s - inject_Z f ?= 1 # 2)%Q with
  | Lt => f
  | Gt => (f + 1)%Z
  | Eq => if Z.even f then f else (f + 1)%Z
  end.

(** The binary64 value of a real [q > 0]: the nearest multiple of [2^p],
    where [p] leaves 53 bits to the significand and is at least -1074 (the
    subnormal range); from [2^1024] on the result is infinity. *)
Definition binary64_pos (q : Q) : number :=
  let p := Z.max (ilog2 q - 52) (-1074) in
  let v := (inject_Z (round_half_even (q / 2 ^ p)) * 2 ^ p)%Q in
  if Qle_bool (2 ^ 1024)%Q v then PosInf else Fin (Qred v).

(** The binary64 value of a real: what an arithmetic operation returns for
    its exact result. *)
Definition binary64 (q : Q) : number :=
  match (q ?= 0)%Q with
  | Eq => Fin 0
  | Gt => binary64_pos q
  | Lt => opp (binary64_pos (- q))
  end.

Definition mul (a b : number) : number :=
  match a, b with
  | NaN, _ | _, NaN => NaN
  | Fin x, Fin y => binary64 (x * y)
  | PosInf, _ => inf_mul b
  | NegInf, _ => opp (inf_mul b)
  | _, PosInf => inf_mul a
  | _, NegInf => opp (inf_mul a)
  end.

Definition add (a b : number) : number :=
  match a, b with
  | NaN, _ | _, NaN => NaN
  | Fin x, Fin y => binary64 (x + y)
  | PosInf, NegInf | NegInf, PosInf => NaN
  | PosInf, _ | _, PosInf => PosInf
  | NegInf, _ | _, NegInf => NegInf
  end.

(** [a / b]; a zero divisor is +0. *)
Definition div (a b : number) : number :=
  match a, b with
  | NaN, _ | _, NaN => NaN
  | Fin x, Fin y =>
      if Qeq_bool y 0
      then match (x ?= 0)%Q with Gt => PosInf | Lt => NegInf | Eq => NaN end
      else binary64 (x / y)
  | Fin _, _ => Fin 0
  | _, Fin y =>
      match (y ?= 0)%Q with Lt => opp a | _ => a end
  | _, _ => NaN
  end.

(** Rounding a rational toward zero. *)
Definition Qtrunc (x : Q) : Z :=
  match (x ?= 0)%Q with Lt => Qceiling x | _ => Qfloor x end.

(** [a % b]: the remainder takes the sign of the dividend. *)
Definition rem (a b : number) : number :=
  match a, b with
  | NaN, _ | _, NaN => NaN
  | PosInf, _ | NegInf, _ => NaN
  | Fin x, Fin y =>
      if Qeq_bool y 0 then NaN
      else Fin (x - y * inject_Z (Qtrunc (x / y)))
  | Fin x, _ => Fin x
  end.

(** [Math.round]: the nearest integer, a tie going up. *)
Definition round (a : number) : number :=
  match a with
  | Fin x => Fin (inject_Z (Qfloor (x + 0.5)))
  | _ => a
  end.

(** [Math.floor]. *)
Definition floor (a : number) : number :=
  match a with
  | Fin x => Fin (inject_Z (Qfloor x))
  | _ => a
  end.

(** The decimal exponent of [x > 0]: the [n] with [10^(n-1) <= x < 10^n],
    reached from an estimate by the binade. *)
Fixpoint decade (fuel : nat) (x : Q) (n : Z) : Z :=
  match fuel with
  | O => n
  | S fuel' =>
      if negb (Qle_bool (10 ^ (n - 1))%Q x) then decade fuel' x (n - 1)
      else if Qle_bool (10 ^ n)%Q x then decade fuel' x (n + 1)
      else n
  end.

(** The decimal [v] reads back as the binary64 value [x]. *)
Definition reads_back (v x : Q) : bool :=
  match binary64 v with
  | Fin y => Qeq_bool y x
  | _ => false
  end.

(** The [k]-digit integers [s] next to [x / 10^(n-k)] for which
    [s * 10^(n-k)] reads back as [x]. *)
Definition candidates (x : Q) (k n : Z) : list (Z * Z) :=
  let s := Qfloor (x / 10 ^ (n - k))%Q in
  List.map (fun s' => (s', n))
    (List.filter
       (fun s' => (10 ^ (k - 1) <=? s')%Z && (s' <? 10 ^ k)%Z
                  && reads_back (inject_Z s' * 10 ^ (n - k))%Q x)
       [s; (s + 1)%Z]).

Definition distance (x : Q) (k : Z) (c : Z * Z) : Q :=
  Qabs (inject_Z (fst c) * 10 ^ (snd c - k) - x)%Q.

(** Of two candidates the closer to [x], and the even one in a tie. *)
Definition closer (x : Q) (k : Z) (c d : Z * Z) : Z * Z :=
  match (distance x k c ?= distance x k d)%Q with
  | Lt => c
  | Gt => d
  | Eq => if Z.even (fst c) then c else d
  end.

Definition closest (x : Q) (k : Z) (l : list (Z * Z)) : option (Z * Z) :=
  match l with
  | [] => None
  | c :: l' => Some (List.fold_left (closer x k) l' c)
  end.

(** The integers [s], [k], [n] of Number::toString: [k] as small as
    possible such that a [k]-digit [s] has [s * 10^(n-k)] read back as [x],
    and of these [s] the closest to [x].  17 digits always suffice. *)
Fixpoint shortest (fuel : nat) (x : Q) (n0 k : Z) : Z * Z * Z :=
  match fuel with
  | O => (0, 1, 1)%Z
  | S fuel' =>
      match closest x k (candidates x k n0 ++ candidates x k (n0 + 1)) with
      | Some (s, n) => (s, k, n)
      | None => shortest fuel' x n0 (k + 1)
      end
  end.

Fixpoint zeros (n : nat) : string :=
  match n with
  | O => ""
  | S n' => String "0" (zeros n')
  end.

(** Number::toString on a binary64 value [x > 0]: the digits of [s], laid
    out with the decimal point after [n] of them, and in exponent notation
    when [n] is above 21 or below -5. *)
Definition decimal (x : Q) : string :=
  let n0 := decade 4 x ((ilog2 x * 30103) / 100000 + 1)%Z in
  let '(s, k, n) := shortest 17 x n0 1 in
  let digits := pretty s in
  if (-6 <? n)%Z && (n <=? 21)%Z then
    if (k <=? n)%Z then digits +:+ zeros (Z.to_nat (n - k))
    else if (0 <? n)%Z then
      substring 0 (Z.to_nat n) digits
        +:+ "." +:+ substring (Z.to_nat n) (Z.to_nat (k - n)) digits
    else "0." +:+ zeros (Z.to_nat (- n)) +:+ digits
  else
    let e := (n - 1)%Z in
    (if (k =? 1)%Z then digits
     else substring 0 1 digits
            +:+ "." +:+ substring 1 (Z.to_nat (k - 1)) digits)
      +:+ "e" +:+ (if (0 <? e)%Z then "+" else "-") +:+ pretty (Z.abs e).

(** Number::toString, as a template literal applies it.  An integer below
    2^53 is a binary64 value and its own shortest decimal: it is printed by
    its digits.  Any other number is printed by the shortest decimal that
    reads back as its binary64 value. *)
Definition to_string (a : number) : string :=
  match a with
  | NaN => "NaN"
  | PosInf => "Infinity"
  | NegInf => "-Infinity"
  | Fin x =>
      let m := Qabs x in
      let i := Qfloor m in
      (match (x ?= 0)%Q with Lt => "-" | _ => "" end)
        +:+ (if Qeq_bool m (inject_Z i) && (i <? 2 ^ 53)%Z then pretty i
             else match binary64_pos m with
                  | Fin y => decimal y
                  | _ => "Infinity"
                  end)
  end.

End Num.

(** ** Values *)

Inductive prim : Type :=
  | PUndefined
  | PNull
  | PBool (b : bool)
  | PNum (n : number)
  | PStr (s : string) (numeric : number).

(** A JavaScript object: property name to value. *)
Abbreviation object := (gmap string prim).

(** Reading a property of an object; an absent one reads as undefined. *)
Definition get (o : object) (key : string) : prim :=
  default PUndefined (o !! key).

Inductive jstype : Type :=
  | TUndefined | TObject | TBoolean | TNumber | TString | TFunction.

#[global] Instance jstype_eq_dec : EqDecision jstype.
Proof. solve_decision. Defined.

Definition typeof_prim (p : prim) : jstype :=
  match p with
  | PUndefined => TUndefined
  | PNull => TObject
  | PBool _ => TBoolean
  | PNum _ => TNumber
  | PStr _ _ => TString
  end.

(** ToBoolean: undefined, null, false, 0, NaN and the empty string are
    falsy. *)
Definition truthy (p : prim) : bool :=
  match p with
  | PUndefined | PNull => false
  | PBool b => b
  | PNum NaN => false
  | PNum (Fin x) => negb (Qeq_bool x 0)
  | PNum _ => true
  | PStr s _ => negb (bool_decide (s = ""))
  end.

(** ToNumber. *)
Definition ToNumber (p : prim) : number :=
  match p with
  | PUndefined => NaN
  | PNull => Fin 0
  | PBool true => Fin 1
  | PBool false => Fin 0
  | PNum n => n
  | PStr _ n => n
  end.

(** [a || b]. *)
Definition js_or (a b : prim) : prim := if truthy a then a else b.

(** The relational operators where one operand is a number literal, as
    everywhere in this program: both sides go through ToNumber. *)
Definition js_lt (a b : prim) : bool := Num.lt (ToNumber a) (ToNumber b).
Definition js_gt (a b : prim) : bool := Num.gt (ToNumber a) (ToNumber b).
Definition js_le (a b : prim) : bool := Num.le (ToNumber a) (ToNumber b).

(** [a === b]: same type and same value. *)
Definition js_strict_eq (a b : prim) : bool :=
  match a, b with
  | PUndefined, PUndefined | PNull, PNull => true
  | PBool x, PBool y => bool_decide (x = y)
  | PNum m, PNum n => Num.strict_eq m n
  | PStr s _, PStr t _ => bool_decide (s = t)
  | _, _ => false
  end.

(** [a * b]. *)
Definition js_mul (a b : prim) : number := Num.mul (ToNumber a) (ToNumber b).

(** Constants for opening and ending theme durations (in minutes). *)
Definition OPENING_THEME_DURATION : number := Fin 1.5.
Definition ENDING_THEME_DURATION : number := Fin 1.5.
Definition DEFAULT_EPISODE_DURATION : number := Fin 24.

(** ** Results *)

Record Breakdown : Type := {
  bd_episodes : prim;
  bd_episodeDuration : prim;
  baseTime : string;
  openingTime : option string;
  endingTime : option string;
  bd_includeOpening : prim;
  bd_includeEnding : prim
}.

Record TimeCalculationResult : Type := {
  baseMinutes : number;
  openingMinutes : number;
  endingMinutes : number;
  totalMinutes : number;
  formattedTime : string;
  breakdown : Breakdown
}.

(** A function value.  [cb_body result options message] is [Some e] when
    the call throws [e], and [None] when it returns. *)
Record callback : Type := {
  cb_id : nat;
  cb_body : option TimeCalculationResult -> object -> option string -> option string
}.

Inductive value : Type :=
  | VPrim (p : prim)
  | VObject (o : object)
  | VFunction (f : callback).

Coercion VPrim : prim >-> value.

Definition typeof (v : value) : jstype :=
  match v with
  | VPrim p => typeof_prim p
  | VObject _ => TObject
  | VFunction _ => TFunction
  end.

(** ToBoolean on any value: objects and functions are truthy. *)
Definition ToBoolean (v : value) : bool :=
  match v with
  | VPrim p => truthy p
  | _ => true
  end.

(** [v.key].  Objects answer from their map; a function of the model has no
    property of its own, and a boolean, a number or a string has none of the
    names the program reads.  (On undefined and null JavaScript throws; the
    program guards every property read against them.) *)
Definition property (v : value) (key : string) : prim :=
  match v with
  | VObject o => get o key
  | _ => PUndefined
  end.

(** The number behind a value whose [typeof] is ['number']. *)
Definition as_number (v : value) : option number :=
  match v with
  | VPrim (PNum n) => Some n
  | _ => None
  end.

(** ** formatTime *)

Definition formatTime (totalMinutes : value) : string :=
  match as_number totalMinutes with
  | None => "0 minutes"                      (* typeof totalMinutes !== 'number' *)
  | Some n =>
      if Num.lt n (Fin 0) then "0 minutes"
      else
        let roundedMinutes := Num.round n in
        if Num.lt roundedMinutes (Fin 60) then
          if Num.strict_eq roundedMinutes (Fin 1) then "1 minute"
          else Num.to_string roundedMinutes +:+ " minutes"
        else
          let hours := Num.floor (Num.div roundedMinutes (Fin 60)) in
          let minutes := Num.rem roundedMinutes (Fin 60) in
          let result := "" in
          let result :=
            if Num.gt hours (Fin 0) then
              result +:+ (if Num.strict_eq hours (Fin 1) then "1 hour"
                         else Num.to_string hours +:+ " hours")
            else result in
          let result :=
            if Num.gt minutes (Fin 0) then
              let result :=
                if negb (bool_decide (result = "")) then result +:+ " "
                else result in
              result +:+ (if Num.strict_eq minutes (Fin 1) then "1 minute"
                         else Num.to_string minutes +:+ " minutes")
            else result in
          if negb (bool_decide (result = "")) then result else "0 minutes"
  end.

(** ** validateCalculationInput *)

Record validation : Type := {
  isValid : bool;
  error : option string
}.

Definition invalid (message : string) : validation :=
  {| isValid := false; error := Some message |}.

Definition validateCalculationInput (options : value) : validation :=
  if negb (ToBoolean options) || bool_decide (typeof options ≠ TObject) then
    invalid "Invalid calculation options provided"
  else
    let episodes := property options "episodes" in
    let episodeDuration := property options "episodeDuration" in
    (* Validate episodes *)
    if bool_decide (typeof_prim episodes ≠ TNumber)
       || js_lt episodes (PNum (Fin 0)) then
      invalid "Episodes must be a non-negative number"
    else if js_strict_eq episodes (PNum (Fin 0)) then
      invalid "Cannot calculate time for anime with 0 episodes"
    (* Validate episode duration (allow undefined/null for default) *)
    else if negb (js_strict_eq episodeDuration PUndefined)
            && negb (js_strict_eq episodeDuration PNull)
            && (bool_decide (typeof_prim episodeDuration ≠ TNumber)
                || js_le episodeDuration (PNum (Fin 0))) then
      invalid "Episode duration must be a positive number"
    (* Check for reasonable limits to prevent overflow *)
    else if js_gt episodes (PNum (Fin 10000)) then
      invalid "Episode count exceeds reasonable limit (10,000 episodes)"
    else if js_gt episodeDuration (PNum (Fin 1440)) then
      invalid "Episode duration exceeds reasonable limit (24 hours)"
    else {| isValid := true; error := None |}.

(** ** calculateWatchTime *)

(** How a call ends: it returns a value, or it throws an [Error] with a
    message. *)
Inductive completion (A : Type) : Type :=
  | Normal (a : A)
  | Throw (message : string).

Arguments Normal {A} a.
Arguments Throw {A} message.

(** A destructuring default applies to an undefined property only. *)
Definition with_default (p d : prim) : prim :=
  match p with
  | PUndefined => d
  | _ => p
  end.

Definition calculateWatchTime (options : value)
  : completion TimeCalculationResult :=
  (* Validate input *)
  let validation := validateCalculationInput options in
  if negb (isValid validation) then
    Throw (default "null" (error validation))
  else
    let episodes := property options "episodes" in
    let episodeDuration := property options "episodeDuration" in
    let includeOpening :=
      with_default (property options "includeOpening") (PBool false) in
    let includeEnding :=
      with_default (property options "includeEnding") (PBool false) in
    (* Use default episode duration if not provided or invalid *)
    let finalEpisodeDuration :=
      if bool_decide (typeof_prim episodeDuration = TNumber)
         && js_gt episodeDuration (PNum (Fin 0))
      then episodeDuration
      else PNum DEFAULT_EPISODE_DURATION in
    (* Calculate base time (episodes * duration per episode) *)
    let baseMinutes := js_mul episodes finalEpisodeDuration in
    (* Calculate additional time from opening and ending themes *)
    let openingMinutes :=
      if truthy includeOpening
      then js_mul episodes (PNum OPENING_THEME_DURATION) else Fin 0 in
    let endingMinutes :=
      if truthy includeEnding
      then js_mul episodes (PNum ENDING_THEME_DURATION) else Fin 0 in
    (* Calculate total time *)
    let totalMinutes :=
      Num.add (Num.add baseMinutes openingMinutes) endingMinutes in
    Normal
      {| baseMinutes := baseMinutes;
         openingMinutes := openingMinutes;
         endingMinutes := endingMinutes;
         totalMinutes := totalMinutes;
         formattedTime := formatTime (PNum totalMinutes);
         breakdown :=
           {| bd_episodes := episodes;
              bd_episodeDuration := finalEpisodeDuration;
              baseTime := formatTime (PNum baseMinutes);
              openingTime :=
                if truthy includeOpening
                then Some (formatTime (PNum openingMinutes)) else None;
              endingTime :=
                if truthy includeEnding
                then Some (formatTime (PNum endingMinutes)) else None;
              bd_includeOpening := includeOpening;
              bd_includeEnding := includeEnding |} |}.

(** Object literals of the tests. *)
Definition options_of (episodes episodeDuration : prim)
    (includeOpening includeEnding : bool) : value :=
  VObject (<["episodes" := episodes]>
           (<["episodeDuration" := episodeDuration]>
            (<["includeOpening" := PBool includeOpening]>
             (<["includeEnding" := PBool includeEnding]> ∅)))).


(** ** The calculator session *)

(** What the session does that its surroundings can see, in order: it
    enters the calculation function, it calls a listener (with two
    arguments, or with a message as the third), it writes to the console. *)
Inductive event : Type :=
  | ECalculate (options : value)
  | ENotify (listener : callback) (result : option TimeCalculationResult)
      (options : object) (message : option string)
  | EConsoleError (label : string) (thrown : string).

(** The three variables the closure of [createTimeCalculator] captures,
    and the history of the session so far. *)
Record state : Type := {
  currentOptions : object;
  currentResult : option TimeCalculationResult;
  changeListeners : list callback;
  history : list event
}.

(** Statements of the session: they read and write the state, and they
    return or throw. *)
Definition M (A : Type) : Type := state -> completion A * state.

#[global] Instance M_ret : MRet M := fun A a s => (Normal a, s).
#[global] Instance M_bind : MBind M := fun A B f m s =>
  match m s with
  | (Normal a, s') => f a s'
  | (Throw e, s') => (Throw e, s')
  end.

Definition gets {A : Type} (field : state -> A) : M A :=
  fun s => (Normal (field s), s).

Definition set_currentOptions (o : object) : M unit := fun s =>
  (Normal (),
   {| currentOptions := o; currentResult := currentResult s;
      changeListeners := changeListeners s; history := history s |}).

Definition set_currentResult (r : option TimeCalculationResult) : M unit :=
  fun s =>
  (Normal (),
   {| currentOptions := currentOptions s; currentResult := r;
      changeListeners := changeListeners s; history := history s |}).

Definition set_changeListeners (ls : list callback) : M unit := fun s =>
  (Normal (),
   {| currentOptions := currentOptions s; currentResult := currentResult s;
      changeListeners := ls; history := history s |}).

Definition emit (e : event) : M unit := fun s =>
  (Normal (),
   {| currentOptions := currentOptions s; currentResult := currentResult s;
      changeListeners := changeListeners s; history := history s ++ [e] |}).

Definition throw {A : Type} (e : string) : M A := fun s => (Throw e, s).

(** [try { body } catch (error) { handler }]. *)
Definition try_catch {A : Type} (body : M A) (handler : string -> M A) : M A :=
  fun s =>
  match body s with
  | (Normal a, s') => (Normal a, s')
  | (Throw e, s') => handler e s'
  end.

(** [currentOptions.key = v]: a write into the live options object. *)
Definition assign (key : string) (v : prim) : M unit :=
  o ← gets currentOptions; set_currentOptions (<[key := v]> o).

(** [console.error(label, thrown)]. *)
Definition console_error (label thrown : string) : M unit :=
  emit (EConsoleError label thrown).

(** [listener(result, options)] and [listener(null, options, message)]. *)
Definition call_listener (listener : callback)
    (result : option TimeCalculationResult) (options : object)
    (message : option string) : M unit :=
  emit (ENotify listener result options message);;
  match cb_body listener result options message with
  | Some e => throw e
  | None => mret ()
  end.

(** [calculateWatchTime(options)], called from the session. *)
Definition call_calculateWatchTime (options : value)
  : M TimeCalculationResult :=
  emit (ECalculate options);;
  match calculateWatchTime options with
  | Normal r => mret r
  | Throw e => throw e
  end.

(** [listeners.forEach(f)]. *)
Fixpoint forEach (listeners : list callback) (f : callback -> M unit)
  : M unit :=
  match listeners with
  | [] => mret ()
  | listener :: rest => f listener;; forEach rest f
  end.

(** Recalculates time and notifies listeners. *)
Definition recalculate : M unit :=
  try_catch
    (options ← gets currentOptions;
     (if js_gt (get options "episodes") (PNum (Fin 0)) then
        result ← call_calculateWatchTime (VObject options);
        set_currentResult (Some result)
      else
        set_currentResult None);;
     (* Notify all listeners of the change *)
     listeners ← gets changeListeners;
     forEach listeners (fun listener =>
       try_catch
         (result ← gets currentResult;
          options ← gets currentOptions;
          call_listener listener result options None)
         (fun error =>
            console_error "Error in time calculator listener:" error)))
    (fun error =>
       console_error "Error calculating time:" error;;
       set_currentResult None;;
       (* Notify listeners of error state *)
       listeners ← gets changeListeners;
       forEach listeners (fun listener =>
         try_catch
           (options ← gets currentOptions;
            call_listener listener None options (Some error))
           (fun listenerError =>
              console_error "Error in time calculator listener:"
                listenerError))).

(** Updates anime data and recalculates. *)
Definition updateAnime (animeData : value) : M unit :=
  if ToBoolean animeData && bool_decide (typeof animeData = TObject) then
    assign "episodes" (js_or (property animeData "episodes") (PNum (Fin 0)));;
    assign "episodeDuration"
      (js_or (property animeData "duration") (PNum DEFAULT_EPISODE_DURATION));;
    recalculate
  else mret ().

(** Updates opening theme inclusion and recalculates. *)
Definition setIncludeOpening (include : value) : M unit :=
  assign "includeOpening" (PBool (ToBoolean include));;
  recalculate.

(** Updates ending theme inclusion and recalculates. *)
Definition setIncludeEnding (include : value) : M unit :=
  assign "includeEnding" (PBool (ToBoolean include));;
  recalculate.

(** Updates both opening and ending inclusion. *)
Definition setThemeInclusion (includeOpening includeEnding : value) : M unit :=
  assign "includeOpening" (PBool (ToBoolean includeOpening));;
  assign "includeEnding" (PBool (ToBoolean includeEnding));;
  recalculate.

(** Gets current calculation result. *)
Definition getCurrentResult : M (option TimeCalculationResult) :=
  gets currentResult.

(** Gets current options: a copy of the options object. *)
Definition getCurrentOptions : M object := gets currentOptions.

(** Adds a listener for calculation changes. *)
Definition addChangeListener (listener : value) : M unit :=
  match listener with
  | VFunction f =>                      (* typeof listener === 'function' *)
      listeners ← gets changeListeners;
      set_changeListeners (listeners ++ [f]);;
      (* Immediately call with current state *)
      try_catch
        (result ← gets currentResult;
         options ← gets currentOptions;
         call_listener f result options None)
        (fun error =>
           console_error "Error in time calculator listener:" error)
  | _ => mret ()
  end.

(** [listeners.indexOf(v)]: the first position holding the function [v];
    [None] stands for -1. *)
Fixpoint indexOf (listeners : list callback) (v : value) : option nat :=
  match listeners with
  | [] => None
  | f :: rest =>
      match v with
      | VFunction g =>
          if bool_decide (cb_id f = cb_id g) then Some O
          else S <$> indexOf rest v
      | _ => None
      end
  end.

(** Removes a change listener. *)
Definition removeChangeListener (listener : value) : M unit :=
  listeners ← gets changeListeners;
  match indexOf listeners listener with
  | Some index => set_changeListeners (delete index listeners)
  | None => mret ()
  end.

(** The options a session starts from and is reset to. *)
Definition baseline : object :=
  <["episodes" := PNum (Fin 0)]>
  (<["episodeDuration" := PNum DEFAULT_EPISODE_DURATION]>
   (<["includeOpening" := PBool false]>
    (<["includeEnding" := PBool false]> ∅))).

(** Resets calculator to initial state. *)
Definition reset : M unit :=
  set_currentOptions baseline;;
  set_currentResult None;;
  listeners ← gets changeListeners;
  forEach listeners (fun listener =>
    try_catch
      (options ← gets currentOptions;
       call_listener listener None options None)
      (fun error =>
         console_error "Error in time calculator listener:" error)).

(** The numeric value of a one-character string: a digit is its value,
    white space is 0, anything else is NaN. *)
Definition char_numeric (c : ascii) : number :=
  let n := N_of_ascii c in
  if bool_decide (48 ≤ n ≤ 57)%N then Fin (inject_Z (Z.of_N n - 48))
  else if bool_decide (n ∈ [9; 10; 11; 12; 13; 32; 160]%N) then Fin 0
  else NaN.

(** The indexed characters of a string, as an object spread sees them. *)
Fixpoint string_properties (index : nat) (s : string) : object :=
  match s with
  | EmptyString => ∅
  | String c rest =>
      <[pretty index := PStr (String c EmptyString) (char_numeric c)]>
        (string_properties (S index) rest)
  end.

(** [{ ...v }]: the own enumerable properties of a value. *)
Definition spread (v : value) : object :=
  match v with
  | VObject o => o
  | VPrim (PStr s _) => string_properties 0 s
  | _ => ∅
  end.

(** Creates a time calculator instance with automatic recalculation.
    The parameter defaults to [{}] when it is undefined. *)
Definition createTimeCalculator (initialOptions : value) : state :=
  let initialOptions :=
    match initialOptions with
    | VPrim PUndefined => VObject ∅
    | _ => initialOptions
    end in
  {| currentOptions := spread initialOptions ∪ baseline;
     currentResult := None;
     changeListeners := [];
     history := [] |}.

(** Validates if anime data is suitable for time calculation. *)
Definition canCalculateTime (animeData : value) : bool :=
  if negb (ToBoolean animeData) || bool_decide (typeof animeData ≠ TObject)
  then false
  else
    bool_decide (typeof_prim (property animeData "episodes") = TNumber)
    && js_gt (property animeData "episodes") (PNum (Fin 0)).

(** ** Sequences of calls *)

Inductive call : Type :=
  | UpdateAnime (animeData : value)
  | SetIncludeOpening (include : value)
  | SetIncludeEnding (include : value)
  | SetThemeInclusion (includeOpening includeEnding : value)
  | GetCurrentResult
  | GetCurrentOptions
  | AddChangeListener (listener : value)
  | RemoveChangeListener (listener : value)
  | Recalculate
  | Reset.

Definition perform (c : call) : M unit :=
  match c with
  | UpdateAnime animeData => updateAnime animeData
  | SetIncludeOpening include => setIncludeOpening include
  | SetIncludeEnding include => setIncludeEnding include
  | SetThemeInclusion o e => setThemeInclusion o e
  | GetCurrentResult => getCurrentResult;; mret ()
  | GetCurrentOptions => getCurrentOptions;; mret ()
  | AddChangeListener listener => addChangeListener listener
  | RemoveChangeListener listener => removeChangeListener listener
  | Recalculate => recalculate
  | Reset => reset
  end.

(** The state a sequence of calls leaves. *)
Definition run (calls : list call) (s : state) : state :=
  foldl (fun s c => snd (perform c s)) s calls.

(** Inputs of the examples. *)

(** A listener that never throws. *)
Definition quiet (id : nat) : callback :=
  {| cb_id := id; cb_body := fun _ _ _ => None |}.

(** A listener that throws at every call. *)
Definition faulty (id : nat) : callback :=
  {| cb_id := id; cb_body := fun _ _ _ => Some "Listener error" |}.

(** Anime data as the lookup service delivers it. *)
Definition anime (episodes duration : Q) : value :=
  VObject (<["episodes" := PNum (Fin episodes)]>
           (<["duration" := PNum (Fin duration)]> ∅)).

(** ** The specification's words, to compare the code with *)

(** The inputs for which the specification has [formatTime] print
    "0 minutes": what is not a finite number, and what is negative. *)
Definition not_finite_number (v : value) : bool :=
  match v with
  | VPrim (PNum (Fin _)) => false
  | _ => true
  end.

Definition negative (v : value) : bool :=
  match v with
  | VPrim (PNum n) => Num.lt n (Fin 0)
  | _ => false
  end.

(** The error conditions of the calculation function. *)
Inductive failure : Type :=
  | InvalidInput
  | InvalidEpisodeCount
  | ZeroEpisodes
  | InvalidEpisodeDuration
  | EpisodeCountTooLarge
  | EpisodeDurationTooLarge.

(** The message each condition is reported with. *)
Definition failure_message (f : failure) : string :=
  match f with
  | InvalidInput => "Invalid calculation options provided"
  | InvalidEpisodeCount => "Episodes must be a non-negative number"
  | ZeroEpisodes => "Cannot calculate time for anime with 0 episodes"
  | InvalidEpisodeDuration => "Episode duration must be a positive number"
  | EpisodeCountTooLarge =>
      "Episode count exceeds reasonable limit (10,000 episodes)"
  | EpisodeDurationTooLarge =>
      "Episode duration exceeds reasonable limit (24 hours)"
  end.

(** The fixed order of the checks. *)
Definition checks : list failure :=
  [InvalidInput; InvalidEpisodeCount; ZeroEpisodes; InvalidEpisodeDuration;
   EpisodeCountTooLarge; EpisodeDurationTooLarge].

(** A property that is there: neither undefined nor null. *)
Definition present (p : prim) : bool :=
  match p with
  | PUndefined | PNull => false
  | _ => true
  end.

(** "Not a positive number": anything but a number above 0. *)
Definition not_a_positive_number (p : prim) : bool :=
  match p with
  | PNum n => negb (Num.gt n (Fin 0))
  | _ => true
  end.

(** "Not a number, or a number that is at most 0"; NaN is neither. *)
Definition not_a_number_or_at_most_0 (p : prim) : bool :=
  match p with
  | PNum n => Num.le n (Fin 0)
  | _ => true
  end.

(** The six conditions, for a given reading of what makes a duration that
    is there invalid. *)
Definition condition (bad_duration : prim -> bool) (f : failure) (v : value)
  : bool :=
  let episodes := property v "episodes" in
  let episodeDuration := property v "episodeDuration" in
  match f with
  | InvalidInput =>
      match v with VObject _ => false | _ => true end
  | InvalidEpisodeCount =>
      match episodes with PNum n => Num.lt n (Fin 0) | _ => true end
  | ZeroEpisodes =>
      match episodes with PNum n => Num.strict_eq n (Fin 0) | _ => false end
  | InvalidEpisodeDuration =>
      present episodeDuration && bad_duration episodeDuration
  | EpisodeCountTooLarge =>
      match episodes with PNum n => Num.gt n (Fin 10000) | _ => false end
  | EpisodeDurationTooLarge =>
      match episodeDuration with
      | PNum n => Num.gt n (Fin 1440)
      | _ => false
      end
  end.

(** The conditions as the specification words them: a duration that is
    there must be a positive number. *)
Definition claimed_condition : failure -> value -> bool :=
  condition not_a_positive_number.

(** The conditions as the code checks them: a duration that is there must
    be of type number and must not be at most 0. *)
Definition coded_condition : failure -> value -> bool :=
  condition not_a_number_or_at_most_0.

(** The first condition, in the fixed order, that holds of an input. *)
Definition first_failing (cond : failure -> value -> bool) (v : value)
  : option failure :=
  List.find (fun f => cond f v) checks.

(** A number that is whole. *)
Definition whole (x : Q) : bool := Qeq_bool x (inject_Z (Qfloor x)).

(** ** Reading the history of a session *)

(** The calls that run [recalculate]. *)
Definition recomputes (c : call) : bool :=
  match c with
  | UpdateAnime animeData =>
      ToBoolean animeData && bool_decide (typeof animeData = TObject)
  | SetIncludeOpening _ | SetIncludeEnding _ | SetThemeInclusion _ _
  | Recalculate => true
  | _ => false
  end.

(** The mutating operations: those that recompute, and the reset. *)
Definition mutating (c : call) : bool :=
  match c with
  | Reset => true
  | _ => recomputes c
  end.

(** The calls of listeners in a stretch of history. *)
Definition notifications (h : list event) : list event :=
  List.filter
    (fun e => match e with ENotify _ _ _ _ => true | _ => false end) h.

(** The inputs the calculation function was entered with. *)
Definition calculations (h : list event) : list value :=
  omap (fun e => match e with ECalculate v => Some v | _ => None end) h.

(** The formatted time each notified result carries. *)
Definition notified_times (h : list event) : list (option string) :=
  omap
    (fun e =>
       match e with
       | ENotify _ result _ _ => Some (formattedTime <$> result)
       | _ => None
       end) h.

(** What calling every listener once, in order, leaves in the history:
    the call, and the console line when the listener threw. *)
Definition listener_events (listeners : list callback)
    (result : option TimeCalculationResult) (options : object)
    (message : option string) : list event :=
  flat_map
    (fun listener =>
       ENotify listener result options message
       :: match cb_body listener result options message with
          | Some e => [EConsoleError "Error in time calculator listener:" e]
          | None => []
          end)
    listeners.

(** The state with more history. *)
Definition log (s : state) (events : list event) : state :=
  {| currentOptions := currentOptions s;
     currentResult := currentResult s;
     changeListeners := changeListeners s;
     history := history s ++ events |}.

(** The state with other options. *)
Definition with_options (s : state) (o : object) : state :=
  {| currentOptions := o;
     currentResult := currentResult s;
     changeListeners := changeListeners s;
     history := history s |}.

(** The options a call leaves, before it recomputes. *)
Definition assigned (c : call) (o : object) : object :=
  match c with
  | UpdateAnime animeData =>
      <["episodeDuration" :=
          js_or (property animeData "duration") (PNum DEFAULT_EPISODE_DURATION)]>
        (<["episodes" :=
             js_or (property animeData "episodes") (PNum (Fin 0))]> o)
  | SetIncludeOpening include =>
      <["includeOpening" := PBool (ToBoolean include)]> o
  | SetIncludeEnding include =>
      <["includeEnding" := PBool (ToBoolean include)]> o
  | SetThemeInclusion includeOpening includeEnding =>
      <["includeEnding" := PBool (ToBoolean includeEnding)]>
        (<["includeOpening" := PBool (ToBoolean includeOpening)]> o)
  | _ => o
  end.

(** The episode count a mutating operation works with: the one
    [updateAnime] is given (a falsy one counting as 0), 0 for a reset, and
    the stored one for the others, which do not touch it. *)
Definition episodes_seen (c : call) (s : state) : prim :=
  match c with
  | UpdateAnime animeData =>
      js_or (property animeData "episodes") (PNum (Fin 0))
  | Reset => PNum (Fin 0)
  | _ => get (currentOptions s) "episodes"
  end.

(** What a recomputation settles on for given options: the result, and the
    message handed to the listeners. *)
Definition recomputed (o : object)
  : option TimeCalculationResult * option string :=
  if js_gt (get o "episodes") (PNum (Fin 0)) then
    match calculateWatchTime (VObject o) with
    | Normal r => (Some r, None)
    | Throw m => (None, Some m)
    end
  else (None, None).

(** What a recomputation leaves in the history before it calls the
    listeners. *)
Definition recompute_events (o : object) : list event :=
  if js_gt (get o "episodes") (PNum (Fin 0)) then
    ECalculate (VObject o)
    :: match calculateWatchTime (VObject o) with
       | Normal _ => []
       | Throw m => [EConsoleError "Error calculating time:" m]
       end
  else [].

(** The state a recomputation leaves. *)
Definition recalculated (s : state) : state :=
  let o := currentOptions s in
  {| currentOptions := o;
     currentResult := fst (recomputed o);
     changeListeners := changeListeners s;
     history :=
       history s ++ recompute_events o
         ++ listener_events (changeListeners s) (fst (recomputed o)) o
              (snd (recomputed o)) |}.

(** The options the specification lets a session hold: an episode count
    that is a finite number and not negative, and a duration that is a
    finite number above 0. *)
Definition specified_options (o : object) : Prop :=
  (exists x, get o "episodes" = PNum (Fin x) /\ (0 <= x)%Q)
  /\ (exists y, get o "episodeDuration" = PNum (Fin y) /\ (0 < y)%Q).

(** "Last-known-good values or the baseline": options that pass the
    validation, or the episode count 0 with the duration 24. *)
Definition good_or_baseline (o : object) : Prop :=
  isValid (validateCalculationInput (VObject o)) = true
  \/ (get o "episodes" = PNum (Fin 0)
      /\ get o "episodeDuration" = PNum DEFAULT_EPISODE_DURATION).

(** What the code keeps true of a session: a result that is there is the
    one the calculation function gives for the stored options, whose
    episode count is above 0. *)
Definition result_is_current (s : state) : Prop :=
  forall r,
    currentResult s = Some r ->
    js_gt (get (currentOptions s) "episodes") (PNum (Fin 0)) = true
    /\ calculateWatchTime (VObject (currentOptions s)) = Normal r.

(** ** The utilities of the calculation engine *)

(** Utility function to get default episode duration. *)
Definition getDefaultEpisodeDuration : number := DEFAULT_EPISODE_DURATION.

(** Utility function to get theme durations: opening and ending. *)
Definition getThemeDurations : number * number :=
  (OPENING_THEME_DURATION, ENDING_THEME_DURATION).

(** ** The anime lookup module (scripts/anime-api.js)

    Its pure functions.  The data they work on is what [response.json()]
    delivers: null, booleans, numbers, strings, arrays and objects, nested
    at will; undefined is what reading an absent property yields.  The
    request itself, its timers and its rate limit are not modelled. *)

Module AnimeApi.

(** Validates if an anime has sufficient data for time calculation. *)
Definition canCalculateTime (anime : value) : bool :=
  if negb (ToBoolean anime) then false
  else
    negb (js_strict_eq (property anime "episodes") PNull)
    && js_gt (property anime "episodes") (PNum (Fin 0)).

#[local] Unset Elimination Schemes.

Inductive json : Type :=
  | JUndefined
  | JNull
  | JBool (b : bool)
  | JNum (n : number)
  | JStr (s : string)
  | JArr (items : list json)
  | JObj (fields : gmap string json).

#[local] Set Elimination Schemes.

(** ToBoolean: arrays and objects are truthy. *)
Definition json_truthy (v : json) : bool :=
  match v with
  | JUndefined | JNull => false
  | JBool b => b
  | JNum NaN => false
  | JNum (Fin x) => negb (Qeq_bool x 0)
  | JNum _ => true
  | JStr s => negb (bool_decide (s = ""))
  | JArr _ | JObj _ => true
  end.

(** [a || b]. *)
Definition json_or (a b : json) : json := if json_truthy a then a else b.

(** [v.key], for the property names this module reads: an object answers
    from its fields, and a boolean, a number, a string or an array has no
    property of these names.  (On undefined and null JavaScript throws;
    every read below is behind a truthiness test of [v].) *)
Definition json_get (v : json) (key : string) : json :=
  match v with
  | JObj fields => default JUndefined (fields !! key)
  | _ => JUndefined
  end.

(** [v?.key]. *)
Definition json_get_optional (v : json) (key : string) : json :=
  match v with
  | JUndefined | JNull => JUndefined
  | _ => json_get v key
  end.

(** Validates anime data structure and provides defaults for missing
    values; [JNull] when the data is invalid. *)
Definition validateAndNormalizeAnimeData (data : json) : json :=
  if negb (json_truthy data) || negb (json_truthy (json_get data "Media"))
  then JNull
  else
    let anime := json_get data "Media" in
    (* Validate required fields *)
    if negb (json_truthy (json_get anime "id"))
       || negb (json_truthy (json_get anime "title"))
    then JNull
    else
      JObj
        (<["id" := json_get anime "id"]>
         (<["title" :=
              JObj
                (<["romaji" :=
                     json_or (json_get (json_get anime "title") "romaji")
                       (JStr "Unknown Title")]>
                 (<["english" :=
                      json_or (json_get (json_get anime "title") "english")
                        JNull]>
                  (<["native" :=
                       json_or (json_get (json_get anime "title") "native")
                         (JStr "Unknown Title")]> ∅)))]>
          (<["coverImage" :=
               JObj
                 (<["large" :=
                      json_or
                        (json_get_optional (json_get anime "coverImage")
                           "large")
                        (JStr "")]>
                  (<["medium" :=
                       json_or
                         (json_get_optional (json_get anime "coverImage")
                            "medium")
                         (JStr "")]> ∅))]>
           (<["episodes" := json_or (json_get anime "episodes") JNull]>
            (<["duration" := json_or (json_get anime "duration") JNull]>
             (<["status" :=
                  json_or (json_get anime "status") (JStr "UNKNOWN")]>
              (<["description" :=
                   json_or (json_get anime "description") JNull]> ∅))))))).

(** Gets the default episode duration when API doesn't provide one. *)
Definition getDefaultEpisodeDuration : number := Fin 24.

End AnimeApi.

(** A duration in the anime data that a session can compute with: a falsy
    one, in whose place the default is stored, or a number above 0 and at
    most 1440. *)
Definition usable_duration (d : prim) : bool :=
  negb (truthy d)
  || match d with
     | PNum n => Num.gt n (Fin 0) && Num.le n (Fin 1440)
     | _ => false
     end.

(** ** Further words to compare the code with *)

(** A count with its unit: "1 minute", "5 minutes". *)
Definition phrase (k : Z) (unit : string) : string :=
  if (k =? 1)%Z then "1 " +:+ unit else pretty k +:+ " " +:+ unit +:+ "s".

(** A whole number of minutes in words: minutes alone below an hour, and
    from an hour on the hours, followed by the minutes that remain when
    there are any. *)
Definition hours_and_minutes (n : Z) : string :=
  if (n <? 60)%Z then phrase n "minute"
  else
    phrase (n / 60) "hour"
      +:+ (if (n mod 60 =? 0)%Z then ""
           else " " +:+ phrase (n mod 60) "minute").

(** The identities of the listeners called in a stretch of history. *)
Definition notified_ids (h : list event) : list nat :=
  omap
    (fun e =>
       match e with
       | ENotify l _ _ _ => Some (cb_id l)
       | _ => None
       end) h.

(** The identities registered in a session. *)
Definition registered_ids (s : state) : list nat :=
  cb_id <$> changeListeners s.

(** The calls that register a callback of a given identity. *)
Definition registers (id : nat) (c : call) : bool :=
  match c with
  | AddChangeListener (VFunction f) => bool_decide (cb_id f = id)
  | _ => false
  end.

(** The properties of the options a call writes; a reset replaces the
    whole record and is not listed. *)
Definition written (c : call) : list string :=
  match c with
  | UpdateAnime _ => ["episodes"; "episodeDuration"]
  | SetIncludeOpening _ => ["includeOpening"]
  | SetIncludeEnding _ => ["includeEnding"]
  | SetThemeInclusion _ _ => ["includeOpening"; "includeEnding"]
  | _ => []
  end.

(** ** Proof steps *)

(** Runs one guarded call of a listener. *)
Ltac run_guarded_call :=
  unfold try_catch, call_listener, console_error, emit, gets, throw, log;
  unfold mbind, M_bind; cbn.

(** Closes the case of a call that leaves the state as it was. *)
Ltac state_unchanged :=
  cbn; split; [now right|]; exists []; now rewrite app_nil_r.

(** * Properties *)

(** ** Numbers *)

Section NumFacts.

Implicit Types x y : Q.

Lemma lt_Fin x y : Num.lt (Fin x) (Fin y) = true <-> (x < y)%Q.
Proof.
  simpl. rewrite Qlt_alt. destruct (x ?= y)%Q; split; congruence.
Qed.

Lemma lt_Fin_false x y : Num.lt (Fin x) (Fin y) = false <-> (y <= x)%Q.
Proof.
  rewrite <- not_true_iff_false, lt_Fin. split.
  - apply Qnot_lt_le.
  - apply Qle_not_lt.
Qed.

Lemma le_Fin x y : Num.le (Fin x) (Fin y) = true <-> (x <= y)%Q.
Proof.
  unfold Num.le. rewrite negb_true_iff. apply lt_Fin_false.
Qed.

Lemma strict_eq_Fin x y : Num.strict_eq (Fin x) (Fin y) = true <-> (x == y)%Q.
Proof. apply Qeq_bool_iff. Qed.

Lemma inject_Z_le (a b : Z) : (a <= b)%Z -> (inject_Z a <= inject_Z b)%Q.
Proof. now rewrite Zle_Qle. Qed.

Lemma inject_Z_lt (a b : Z) : (a < b)%Z -> (inject_Z a < inject_Z b)%Q.
Proof. now rewrite Zlt_Qlt. Qed.

(** The floor of an integer plus one half is the integer. *)
Lemma Qfloor_half (z : Z) : Qfloor (inject_Z z + 0.5) = z.
Proof.
  apply Z.le_antisymm.
  - apply Z.lt_succ_r. rewrite Zlt_Qlt.
    apply Qle_lt_trans with (inject_Z z + 0.5)%Q; [apply Qfloor_le|].
    unfold Z.succ. rewrite inject_Z_plus.
    change (inject_Z 1) with 1%Q. lra.
  - rewrite <- (Qfloor_Z z) at 1. apply Qfloor_resp_le. lra.
Qed.

(** [Math.round] leaves what it returned unchanged. *)
Lemma round_round (n : number) : Num.round (Num.round n) = Num.round n.
Proof.
  destruct n as [| | |x]; cbn [Num.round]; try reflexivity.
  now rewrite Qfloor_half.
Qed.

(** A negative number rounds to an integer that is at most 0. *)
Lemma round_negative x : (x < 0)%Q -> (Qfloor (x + 0.5) <= 0)%Z.
Proof.
  intros Hx. apply Z.lt_succ_r. rewrite Zlt_Qlt.
  apply Qle_lt_trans with (x + 0.5)%Q; [apply Qfloor_le|].
  change (inject_Z (Z.succ 0)) with 1%Q. lra.
Qed.

(** A number that is not negative rounds to an integer that is not. *)
Lemma round_nonnegative x : (0 <= x)%Q -> (0 <= Qfloor (x + 0.5))%Z.
Proof.
  intros Hx. change 0%Z with (Qfloor 0). apply Qfloor_resp_le. lra.
Qed.

End NumFacts.

(** ** Rounding to binary64 *)

Section Binary64.

Implicit Types q s v : Q.

Lemma Qfloor_unique v (k : Z) :
  (inject_Z k <= v < inject_Z k + 1)%Q -> Qfloor v = k.
Proof.
  intros [Hlow Hhigh]. apply Z.le_antisymm.
  - apply Z.lt_succ_r. rewrite Zlt_Qlt.
    apply Qle_lt_trans with v; [apply Qfloor_le|].
    unfold Z.succ. rewrite inject_Z_plus. exact Hhigh.
  - rewrite <- (Qfloor_Z k). now apply Qfloor_resp_le.
Qed.

Lemma round_half_even_comp s s' :
  (s == s')%Q -> Num.round_half_even s = Num.round_half_even s'.
Proof.
  intros Hs. unfold Num.round_half_even.
  rewrite (Qfloor_comp _ _ Hs).
  assert (s - inject_Z (Qfloor s') == s' - inject_Z (Qfloor s'))%Q as H
    by (now rewrite Hs).
  now rewrite (Qcompare_comp _ _ H _ _ (Qeq_refl (1 # 2))).
Qed.

(** Rounding to the nearest integer: a number less than one half away from
    the integers from [a] to [b] rounds to one of them. *)
Lemma round_half_even_near s (a b : Z) :
  (inject_Z a - (1 # 2) < s < inject_Z b + (1 # 2))%Q ->
  (a <= Num.round_half_even s <= b)%Z.
Proof.
  intros [Ha Hb]. unfold Num.round_half_even.
  pose proof (Qfloor_le s) as Hfloor. pose proof (Qlt_floor s) as Hlt.
  rewrite inject_Z_plus in Hlt. change (inject_Z 1) with 1%Q in Hlt.
  set (f := Qfloor s) in *.
  assert (forall c d : Z, (inject_Z c < inject_Z d + 1)%Q -> (c <= d)%Z)
    as Hint.
  { intros c d H. apply Z.lt_succ_r. rewrite Zlt_Qlt.
    unfold Z.succ. now rewrite inject_Z_plus. }
  assert (a <= f + 1)%Z as Hlow1.
  { apply Hint. rewrite inject_Z_plus. change (inject_Z 1) with 1%Q. lra. }
  assert (f <= b)%Z as Hhigh0 by (apply Hint; lra).
  assert ((s - inject_Z f <= 1 # 2)%Q -> (a <= f)%Z) as Hlow0.
  { intros H. apply Hint. lra. }
  assert ((1 # 2 <= s - inject_Z f)%Q -> (f + 1 <= b)%Z) as Hhigh1.
  { intros H. apply Hint. rewrite inject_Z_plus.
    change (inject_Z 1) with 1%Q. lra. }
  destruct (Qcompare_spec (s - inject_Z f) (1 # 2)) as [He|Hl|Hg].
  - destruct (Z.even f); split;
      (lia || (apply Hlow0; rewrite He; apply Qle_refl)
           || (apply Hhigh1; rewrite He; apply Qle_refl)).
  - split; [apply Hlow0; now apply Qlt_le_weak|lia].
  - split; [lia|apply Hhigh1; now apply Qlt_le_weak].
Qed.

Lemma round_half_even_between s (a b : Z) :
  (inject_Z a <= s <= inject_Z b)%Q ->
  (a <= Num.round_half_even s <= b)%Z.
Proof. intros [Ha Hb]. apply round_half_even_near. lra. Qed.

Lemma round_half_even_integer s (z : Z) :
  (s == inject_Z z)%Q -> Num.round_half_even s = z.
Proof.
  intros Hs. apply Z.le_antisymm;
    apply (round_half_even_between s z z); rewrite Hs; split; apply Qle_refl.
Qed.

(** The binade of a number below [2^n] is below [n]. *)
Lemma ilog2_lt q (n : Z) :
  (0 < q)%Q -> (0 <= n)%Z -> (q < inject_Z (2 ^ n))%Q -> (Num.ilog2 q < n)%Z.
Proof.
  intros Hq Hn Hlt. unfold Num.ilog2.
  destruct q as [a b]. cbn [Qnum Qden].
  assert (0 < a)%Z as Ha.
  { unfold Qlt in Hq. cbn in Hq. lia. }
  assert (Z.log2 a - Z.log2 (Z.pos b) <= n)%Z as Hc.
  { assert (a < 2 ^ (n + Z.log2 (Z.pos b) + 1))%Z as Hpow.
    { unfold Qlt in Hlt. cbn [Qnum Qden inject_Z] in Hlt.
      destruct (Z.log2_spec (Z.pos b)) as [_ Hb]; [lia|].
      pose proof (Z.log2_nonneg (Z.pos b)) as Hnonneg.
      rewrite <- Z.add_assoc, Z.pow_add_r by lia.
      unfold Z.succ in Hb.
      assert (0 < 2 ^ n)%Z by (apply Z.pow_pos_nonneg; lia).
      nia. }
    apply Z.log2_lt_pow2 in Hpow; lia. }
  destruct (Qle_bool _ _) eqn:Hle; [|lia].
  apply Qle_bool_iff in Hle.
  destruct (Z.eq_dec (Z.log2 a - Z.log2 (Z.pos b))%Z n) as [Heq|]; [|lia].
  rewrite Heq in Hle. exfalso.
  apply (Qlt_irrefl (a # b)). eapply Qlt_le_trans; [exact Hlt|].
  rewrite Zpower_Qpower by exact Hn. exact Hle.
Qed.

(** A power of two with an exponent that is not positive. *)
Lemma pow2_opp (g : Z) :
  (0 <= g)%Z -> (2 ^ (- g) == / inject_Z (2 ^ g))%Q.
Proof.
  intros Hg. rewrite Qpower_opp.
  now rewrite (Zpower_Qpower 2 g Hg).
Qed.

Lemma pow2_pos (g : Z) : (0 <= g)%Z -> (0 < inject_Z (2 ^ g))%Q.
Proof.
  intros Hg. apply (inject_Z_lt 0). now apply Z.pow_pos_nonneg.
Qed.

(** Below [2^n], for [n] up to 53, binary64 rounds to a multiple of
    [2^-g] with [g] at least [53 - n]: there is no overflow, and the
    multiple is the nearest one. *)
Lemma binary64_pos_grid q (n : Z) :
  (0 < q)%Q -> (0 <= n <= 53)%Z -> (q < inject_Z (2 ^ n))%Q ->
  exists g : Z,
    (53 - n <= g)%Z
    /\ Num.binary64_pos q
       = Fin (Qred (inject_Z (Num.round_half_even (q * inject_Z (2 ^ g)))
                    / inject_Z (2 ^ g))).
Proof.
  intros Hq Hn Hlt. pose proof (ilog2_lt q n Hq (proj1 Hn) Hlt) as Hlog.
  unfold Num.binary64_pos.
  set (p := Z.max (Num.ilog2 q - 52) (-1074)).
  assert (p <= n - 53)%Z as Hp by (unfold p; lia).
  exists (- p)%Z. split; [lia|].
  assert (0 <= - p)%Z as Hg by lia.
  pose proof (pow2_opp (- p) Hg) as Hpow. rewrite Z.opp_involutive in Hpow.
  pose proof (pow2_pos (- p) Hg) as Hpos.
  set (P := inject_Z (2 ^ (- p))) in *.
  assert (q / 2 ^ p == q * P)%Q as Hscaled.
  { rewrite Hpow. unfold Qdiv. now rewrite Qinv_involutive. }
  rewrite (round_half_even_comp _ _ Hscaled).
  set (m := Num.round_half_even (q * P)).
  assert (inject_Z m * 2 ^ p == inject_Z m / P)%Q as Hv
    by (now rewrite Hpow).
  assert (m <= 2 ^ 53 * 2 ^ (- p))%Z as Hm.
  { apply (round_half_even_between (q * P) 0 (2 ^ 53 * 2 ^ (- p))).
    unfold P. rewrite inject_Z_mult. fold P.
    assert (inject_Z (2 ^ n) <= inject_Z (2 ^ 53))%Q as Hmono.
    { apply inject_Z_le. apply Z.pow_le_mono_r; lia. }
    change (inject_Z 0) with 0%Q. nra. }
  assert (inject_Z m / P <= inject_Z (2 ^ 53))%Q as Hbound.
  { apply Qle_shift_div_r; [exact Hpos|].
    unfold P. rewrite <- inject_Z_mult. now apply inject_Z_le. }
  destruct (Qle_bool _ _) eqn:Hover.
  - apply Qle_bool_iff in Hover. rewrite Hv in Hover. exfalso.
    apply (Qlt_irrefl (2 ^ 1024)). eapply Qle_lt_trans; [exact Hover|].
    eapply Qle_lt_trans; [exact Hbound|]. vm_compute. reflexivity.
  - f_equal. now apply Qred_complete.
Qed.

Lemma binary64_zero q : (q == 0)%Q -> Num.binary64 q = Fin 0.
Proof.
  intros Hq. unfold Num.binary64.
  now rewrite (Qcompare_comp _ _ Hq _ _ (Qeq_refl 0)).
Qed.

Lemma binary64_positive q : (0 < q)%Q -> Num.binary64 q = Num.binary64_pos q.
Proof.
  intros Hq. unfold Num.binary64.
  now destruct (Qcompare_spec q 0) as [H|H|H]; [lra|lra|].
Qed.

(** A whole number or a whole number and a half, from 0 and below 2^52, is
    a binary64 value: rounding returns it. *)
Lemma binary64_exact q (z : Z) :
  (0 <= q)%Q -> (q < inject_Z (2 ^ 52))%Q -> (q * 2 == inject_Z z)%Q ->
  Num.binary64 q = Fin (Qred q).
Proof.
  intros Hq Hlt Hz. destruct (Qle_lt_or_eq _ _ Hq) as [Hpos|Hzero].
  - rewrite (binary64_positive q Hpos).
    destruct (binary64_pos_grid q 52 Hpos ltac:(lia) Hlt) as (g & Hg & ->).
    f_equal. apply Qred_complete.
    assert (0 <= g - 1)%Z as Hg1 by lia.
    pose proof (pow2_pos g ltac:(lia)) as HP.
    assert (inject_Z (2 ^ g) == 2 * inject_Z (2 ^ (g - 1)))%Q as Hdouble.
    { replace g with (1 + (g - 1))%Z at 1 by lia.
      rewrite Z.pow_add_r, inject_Z_mult by lia. reflexivity. }
    assert (q * inject_Z (2 ^ g) == inject_Z (z * 2 ^ (g - 1)))%Q as Hwhole.
    { rewrite inject_Z_mult, <- Hz, Hdouble. ring. }
    rewrite (round_half_even_integer _ _ Hwhole), <- Hwhole.
    field. lra.
  - rewrite binary64_zero by (now symmetry).
    f_equal. symmetry. apply (Qred_complete q 0). now symmetry.
Qed.

(** Below 2^53 the integers are binary64 values, so rounding a number that
    lies between two of them stays between them. *)
Lemma binary64_between q (a b : Z) :
  (0 <= a)%Z -> (b < 2 ^ 53)%Z -> (inject_Z a <= q <= inject_Z b)%Q ->
  exists v, Num.binary64 q = Fin v /\ (inject_Z a <= v <= inject_Z b)%Q.
Proof.
  intros Ha Hb [Hlow Hhigh].
  assert (0 <= q)%Q as Hq.
  { apply Qle_trans with (inject_Z a); [apply (inject_Z_le 0 a Ha)|exact Hlow]. }
  destruct (Qle_lt_or_eq _ _ Hq) as [Hpos|Hzero].
  - rewrite (binary64_positive q Hpos).
    assert (q < inject_Z (2 ^ 53))%Q as Hlt.
    { eapply Qle_lt_trans; [exact Hhigh|]. now apply inject_Z_lt. }
    destruct (binary64_pos_grid q 53 Hpos ltac:(lia) Hlt) as (g & Hg & ->).
    eexists. split; [reflexivity|]. rewrite Qred_correct.
    pose proof (pow2_pos g ltac:(lia)) as HP.
    set (P := (2 ^ g)%Z) in *.
    destruct (round_half_even_between (q * inject_Z P) (a * P) (b * P))
      as [Hma Hmb].
    { rewrite !inject_Z_mult. nra. }
    apply inject_Z_le in Hma, Hmb. rewrite inject_Z_mult in Hma, Hmb.
    split.
    + apply Qle_shift_div_l; [exact HP|exact Hma].
    + apply Qle_shift_div_r; [exact HP|exact Hmb].
  - exists 0%Q. split; [apply binary64_zero; symmetry; exact Hzero|].
    rewrite Hzero. now split.
Qed.

(** The quotient of the division by 60, as the code computes it on a whole
    number of minutes below 2^53: the binary64 quotient is less than one
    sixtieth away from being rounded up to the next whole number. *)
Lemma floor_div_60 (z : Z) :
  (0 <= z < 2 ^ 53)%Z ->
  Num.floor (Num.div (Fin (inject_Z z)) (Fin 60))
  = Fin (inject_Z (z / 60)).
Proof.
  intros [Hz Hlt]. cbn [Num.div].
  assert (Qeq_bool 60 0 = false) as -> by reflexivity.
  pose proof (Z.div_mod z 60 ltac:(discriminate)) as Hdiv.
  pose proof (Z.mod_pos_bound z 60 eq_refl) as Hmod.
  assert (0 <= z / 60)%Z as Hk by (apply Z.div_pos; lia).
  set (k := (z / 60)%Z) in *. set (r := (z mod 60)%Z) in *.
  assert (inject_Z z == 60 * inject_Z k + inject_Z r)%Q as Hq.
  { rewrite Hdiv at 1. rewrite inject_Z_plus, inject_Z_mult. reflexivity. }
  apply inject_Z_le in Hk. change (inject_Z 0) with 0%Q in Hk.
  assert (0 <= r)%Z as Hr0 by lia. assert (r <= 59)%Z as Hr59 by lia.
  apply inject_Z_le in Hr0, Hr59.
  change (inject_Z 0) with 0%Q in Hr0. change (inject_Z 59) with 59%Q in Hr59.
  destruct (Z.eq_dec z 0%Z) as [Hzero|Hnonzero].
  { subst k. now rewrite Hzero. }
  assert (0 < inject_Z z / 60)%Q as Hpos.
  { apply Qlt_shift_div_l; [reflexivity|]. rewrite Qmult_0_l.
    apply (inject_Z_lt 0 z). lia. }
  assert (inject_Z z / 60 < inject_Z (2 ^ 48))%Q as Hsmall.
  { apply Qlt_shift_div_r; [reflexivity|].
    change 60%Q with (inject_Z 60). rewrite <- inject_Z_mult.
    apply inject_Z_lt. lia. }
  rewrite (binary64_positive _ Hpos).
  destruct (binary64_pos_grid _ 48 Hpos ltac:(lia) Hsmall) as (g & Hg & ->).
  cbn [Num.floor]. f_equal. f_equal.
  pose proof (pow2_pos g ltac:(lia)) as HP.
  assert (inject_Z (2 ^ 5) <= inject_Z (2 ^ g))%Q as H32.
  { apply inject_Z_le. apply Z.pow_le_mono_r; lia. }
  change (inject_Z (2 ^ 5)) with 32%Q in H32.
  set (P := (2 ^ g)%Z) in *.
  destruct (round_half_even_near (inject_Z z / 60 * inject_Z P)
              (k * P) (k * P + P - 1)) as [Hma Hmb].
  { unfold Z.sub. rewrite !inject_Z_plus, !inject_Z_mult, inject_Z_opp.
    change (inject_Z 1) with 1%Q.
    assert (inject_Z z / 60 == inject_Z k + inject_Z r / 60)%Q as ->
      by (rewrite Hq; field).
    assert (0 <= inject_Z r * inject_Z P)%Q as Hlow
      by (apply Qmult_le_0_compat; [exact Hr0|now apply Qlt_le_weak]).
    assert (inject_Z r * inject_Z P <= 59 * inject_Z P)%Q as Hhigh
      by (apply Qmult_le_compat_r; [exact Hr59|now apply Qlt_le_weak]).
    assert ((inject_Z k + inject_Z r / 60) * inject_Z P
            == inject_Z k * inject_Z P
               + (1 # 60) * (inject_Z r * inject_Z P))%Q as -> by field.
    lra. }
  apply inject_Z_le in Hma, Hmb.
  unfold Z.sub in Hmb.
  rewrite !inject_Z_plus, !inject_Z_mult, inject_Z_opp in Hmb.
  rewrite inject_Z_mult in Hma. change (inject_Z 1) with 1%Q in Hmb.
  apply Qfloor_unique. rewrite Qred_correct. split.
  - apply Qle_shift_div_l; [exact HP|exact Hma].
  - apply Qlt_shift_div_r; [exact HP|]. lra.
Qed.

Lemma whole_eq x : whole x = true -> (x == inject_Z (Qfloor x))%Q.
Proof. apply Qeq_bool_eq. Qed.

(** The product of a whole number by a whole number, or by a whole number
    and a half, is computed exactly below 2^52. *)
Lemma mul_exact x y (a b : Z) :
  (0 <= x)%Q -> (0 <= y)%Q -> (x * y < inject_Z (2 ^ 52))%Q ->
  (x == inject_Z a)%Q -> (y * 2 == inject_Z b)%Q ->
  Num.binary64 (x * y) = Fin (Qred (x * y)).
Proof.
  intros Hx Hy Hlt Ha Hb. apply (binary64_exact _ (a * b)).
  - now apply Qmult_le_0_compat.
  - exact Hlt.
  - rewrite inject_Z_mult, <- Ha, <- Hb. ring.
Qed.

(** So is the sum of two such numbers. *)
Lemma add_exact x y (a b : Z) :
  (0 <= x)%Q -> (0 <= y)%Q -> (x + y < inject_Z (2 ^ 52))%Q ->
  (x * 2 == inject_Z a)%Q -> (y * 2 == inject_Z b)%Q ->
  Num.add (Fin x) (Fin y) = Fin (Qred (x + y)).
Proof.
  intros Hx Hy Hlt Ha Hb. cbn [Num.add]. apply (binary64_exact _ (a + b)).
  - lra.
  - exact Hlt.
  - rewrite inject_Z_plus, <- Ha, <- Hb. ring.
Qed.

(** The minutes of a theme for a whole number of episodes: one and a half
    a piece when the theme is included, computed exactly. *)
Lemma theme_minutes_exact (included : bool) x (a : Z) :
  (0 <= x <= 10000)%Q -> (x == inject_Z a)%Q ->
  exists p (z : Z),
    (if included then Num.binary64 (x * 1.5) else Fin 0) = Fin p
    /\ (p == if included then x * 1.5 else 0)%Q
    /\ (p * 2 == inject_Z z)%Q
    /\ (0 <= p <= 15000)%Q.
Proof.
  intros Hx Ha. destruct included.
  - exists (Qred (x * 1.5)), (3 * a)%Z.
    pose proof (Qred_correct (x * 1.5)) as Hred.
    split; [|split; [exact Hred|split]].
    + apply (mul_exact x 1.5 a 3); [lra|discriminate| |exact Ha|reflexivity].
      apply Qle_lt_trans with 15000%Q; [lra|reflexivity].
    + rewrite Hred, inject_Z_mult, <- Ha. ring.
    + rewrite Hred. lra.
  - exists 0%Q, 0%Z. split; [reflexivity|]. split; [reflexivity|].
    split; [reflexivity|]. split; [apply Qle_refl|discriminate].
Qed.

(** The minutes of a theme for any number of episodes up to 10000: a
    finite number from 0 to 15000. *)
Lemma theme_minutes_between (included : bool) x :
  (0 <= x <= 10000)%Q ->
  exists p,
    (if included then Num.binary64 (x * 1.5) else Fin 0) = Fin p
    /\ (0 <= p <= 15000)%Q.
Proof.
  intros Hx. destruct included.
  - apply (binary64_between (x * 1.5) 0 15000); [lia|reflexivity|].
    change (inject_Z 0) with 0%Q. change (inject_Z 15000) with 15000%Q. lra.
  - exists 0%Q. split; [reflexivity|]. split; [apply Qle_refl|discriminate].
Qed.

(** The sum of two numbers between 0 and whole bounds below 2^53 is
    finite, and within the sum of the bounds. *)
Lemma add_between x y (a b : Z) :
  (0 <= x <= inject_Z a)%Q -> (0 <= y <= inject_Z b)%Q ->
  (a + b < 2 ^ 53)%Z ->
  exists v, Num.add (Fin x) (Fin y) = Fin v
            /\ (0 <= v <= inject_Z (a + b))%Q.
Proof.
  intros Hx Hy Hlt. cbn [Num.add].
  apply (binary64_between (x + y) 0 (a + b)); [lia|exact Hlt|].
  rewrite inject_Z_plus. change (inject_Z 0) with 0%Q. lra.
Qed.

End Binary64.

(** Products, sums and quotients are rounded: 20.7 is no binary64 value,
    the nearest one is a little below it, and the products of it by 5 and
    by 24 are the nearest values of the exact ones; a sum of tenths is not
    a tenth; a product of tiny factors is 0 and a product of huge ones is
    infinity. *)
Example binary64_rounding :
  Num.binary64 20.7 = Fin (5826532017910579 # 281474976710656)
  /\ Num.strict_eq (Num.mul (Fin 5) (Num.binary64 20.7)) (Fin 103.5) = true
  /\ Num.to_string (Num.mul (Num.binary64 20.7) (Fin 24))
     = "496.79999999999995"
  /\ Num.to_string (Num.add (Num.binary64 0.1) (Num.binary64 0.2))
     = "0.30000000000000004"
  /\ Num.mul (Num.binary64 1e-200) (Num.binary64 1e-200) = Fin 0
  /\ Num.mul (Num.binary64 1e200) (Num.binary64 1e200) = PosInf
  /\ Num.to_string (Num.div (Fin 1) (Fin 3)) = "0.3333333333333333".
Proof. repeat split; vm_compute; reflexivity. Qed.

(** Numbers are printed by the shortest digits that read back: whole
    numbers by all their digits below 2^53, with zeros for the digits that
    are not needed above, and with an exponent from 10^21 on and below
    10^-6. *)
Example to_string_cases :
  Num.to_string (Fin 9007199254740991) = "9007199254740991"
  /\ Num.to_string (Fin (inject_Z (2 ^ 64))) = "18446744073709552000"
  /\ Num.to_string (Fin 1e20) = "100000000000000000000"
  /\ Num.to_string (Fin 1e21) = "1e+21"
  /\ Num.to_string (Fin 1.5) = "1.5"
  /\ Num.to_string (Fin (-0.000001)) = "-0.000001"
  /\ Num.to_string (Fin 1e-7) = "1e-7"
  /\ formatTime (PNum (Fin 1e19)) = "166666666666666660 hours 40 minutes".
Proof. repeat split; vm_compute; reflexivity. Qed.

(** The calculation rounds with them: 5 episodes of 20.7 minutes are 103.5
    minutes, printed as 1 hour 44 minutes, and a tiny episode count with a
    tiny duration passes the validation and gives 0 minutes. *)
Example calculateWatchTime_rounds :
  match calculateWatchTime
          (options_of (PNum (Fin 5)) (PNum (Num.binary64 20.7)) false false)
  with
  | Normal r =>
      Num.strict_eq (totalMinutes r) (Fin 103.5) = true
      /\ formattedTime r = "1 hour 44 minutes"
  | Throw _ => False
  end
  /\ match calculateWatchTime
            (options_of (PNum (Num.binary64 1e-200))
               (PNum (Num.binary64 1e-200)) false false)
     with
     | Normal r =>
         baseMinutes r = Fin 0 /\ totalMinutes r = Fin 0
         /\ formattedTime r = "0 minutes"
     | Throw _ => False
     end.
Proof. vm_compute. repeat split. Qed.

(** ** formatTime *)

(** What [formatTime] returns for a number that is not below 0, in terms of
    the rounded number alone. *)
Lemma formatTime_above (n : number) :
  Num.lt n (Fin 0) = false ->
  formatTime (PNum (Num.round n)) = formatTime (PNum n).
Proof.
  intros Hn. unfold formatTime. cbn [as_number].
  rewrite round_round, Hn.
  destruct n as [| | |x]; try reflexivity; try discriminate.
  apply lt_Fin_false in Hn. apply round_nonnegative in Hn.
  assert (Num.lt (Num.round (Fin x)) (Fin 0) = false) as ->; [|reflexivity].
  apply lt_Fin_false. cbn [Num.round]. now rewrite <- (Zle_Qle 0).
Qed.

Lemma formatTime_below (n : number) :
  Num.lt n (Fin 0) = true ->
  formatTime (PNum (Num.round n)) = "0 minutes".
Proof.
  intros Hn. destruct n as [| | |x]; try discriminate; [reflexivity|].
  apply lt_Fin, round_negative in Hn. cbn [Num.round].
  destruct (Qfloor (x + 0.5)) as [|p|p]; [reflexivity|lia|reflexivity].
Qed.

(** C7.  Rounding law: for every number [x], [formatTime(x)] is
    [formatTime(Math.round(x))], where [Math.round] rounds to the nearest
    whole minute and a half goes up; in particular [formatTime(59.5)] is
    "1 hour" and [formatTime(90.7)] is "1 hour 31 minutes". *)
Theorem formatTime_rounding :
  (forall x : number,
     formatTime (PNum x) = formatTime (PNum (Num.round x)))
  /\ Num.round (Fin 59.5) = Fin 60
  /\ formatTime (PNum (Fin 59.5)) = "1 hour"
  /\ formatTime (PNum (Fin 90.7)) = "1 hour 31 minutes".
Proof.
  split; [|repeat split; vm_compute; reflexivity].
  intros x. destruct (Num.lt x (Fin 0)) eqn:Hx.
  - rewrite (formatTime_below x Hx).
    unfold formatTime. cbn [as_number]. now rewrite Hx.
  - symmetry. now apply formatTime_above.
Qed.

(** C2, as the code has it.  [formatTime] is a function on all values: each
    operation in it is defined on every value it meets, so no input raises.
    For every input that is not of type number, or is NaN, or is negative
    (minus infinity included), it returns exactly "0 minutes". *)
Theorem formatTime_zero_minutes (v : value) :
  typeof v <> TNumber \/ v = PNum NaN \/ negative v = true ->
  formatTime v = "0 minutes".
Proof.
  intros [Hv|[->|Hv]].
  - destruct v as [[]| |]; try reflexivity. now destruct Hv.
  - reflexivity.
  - destruct v as [[]| |]; try discriminate.
    unfold formatTime. cbn [as_number]. cbn [negative] in Hv. now rewrite Hv.
Qed.

Lemma formatTime_zero_minutes_witness :
  formatTime (PNum (Fin (-1))) = "0 minutes"
  /\ formatTime PNull = "0 minutes"
  /\ formatTime (PNum NaN) = "0 minutes".
Proof.
  split; [|split].
  - apply formatTime_zero_minutes. right. right. reflexivity.
  - apply formatTime_zero_minutes. left. discriminate.
  - apply formatTime_zero_minutes. right. left. reflexivity.
Defined.

(** C2, as the specification states it, fails at plus infinity: it is not a
    finite number, and it is printed as "Infinity hours". *)
Lemma formatTime_infinity :
  not_finite_number (PNum PosInf) = true
  /\ formatTime (PNum PosInf) = "Infinity hours"
  /\ formatTime (PNum PosInf) <> "0 minutes".
Proof. repeat split. discriminate. Qed.

(** ** validateCalculationInput and calculateWatchTime *)

Lemma calculateWatchTime_invalid (v : value) (m : string) :
  validateCalculationInput v = invalid m ->
  calculateWatchTime v = Throw m.
Proof. intros Hv. unfold calculateWatchTime. now rewrite Hv. Qed.

Lemma calculateWatchTime_valid (v : value) :
  isValid (validateCalculationInput v) = true ->
  exists r, calculateWatchTime v = Normal r.
Proof.
  intros Hv. unfold calculateWatchTime. rewrite Hv. cbn [negb]. eauto.
Qed.

Lemma calculateWatchTime_throws (v : value) (m : string) :
  calculateWatchTime v = Throw m ->
  isValid (validateCalculationInput v) = false.
Proof.
  unfold calculateWatchTime.
  now destruct (isValid (validateCalculationInput v)).
Qed.

(** The validation reports the first of the coded conditions that holds,
    and passes when none does. *)
Lemma validateCalculationInput_first_failing (v : value) :
  validateCalculationInput v =
    match first_failing coded_condition v with
    | Some f => invalid (failure_message f)
    | None => {| isValid := true; error := None |}
    end.
Proof.
  destruct v as [p|o|f].
  - unfold validateCalculationInput.
    destruct p as [| |[]|[| | |x]|s n]; cbn [ToBoolean truthy negb orb];
      try reflexivity.
    + now rewrite orb_true_r.
    + now rewrite orb_true_r.
  - unfold validateCalculationInput, first_failing, coded_condition,
      condition, checks.
    cbn [ToBoolean typeof property negb orb List.find].
    destruct (get o "episodes") as [| |b|e|s n]; try reflexivity.
    unfold js_lt, js_gt, js_le, js_strict_eq.
    cbn [ToNumber typeof_prim present not_a_number_or_at_most_0].
    destruct (Num.lt e (Fin 0)); [reflexivity|].
    destruct (Num.strict_eq e (Fin 0)); [reflexivity|].
    destruct (get o "episodeDuration") as [| |b|d|s n];
      cbn [ToNumber typeof_prim present not_a_number_or_at_most_0];
      try reflexivity.
    + now destruct (Num.gt e (Fin 10000)).
    + now destruct (Num.gt e (Fin 10000)).
    + destruct (Num.le d (Fin 0)); [reflexivity|].
      destruct (Num.gt e (Fin 10000)); [reflexivity|].
      now destruct (Num.gt d (Fin 1440)).
  - reflexivity.
Qed.

(** C4, as the code has it.  For every input, [calculateWatchTime] fails if
    and only if one of the six conditions holds: the input is not an object
    (InvalidInput), [episodes] is not a number or is below 0
    (InvalidEpisodeCount), [episodes] is exactly 0 (ZeroEpisodes),
    [episodeDuration] is there and is not of type number or is at most 0
    (InvalidEpisodeDuration; a NaN duration passes), [episodes] is above
    10000 (EpisodeCountTooLarge), [episodeDuration] is above 1440
    (EpisodeDurationTooLarge).  When several hold, the failure reported is
    that of the first in this order; the six messages are distinct; for
    20000 episodes of duration -5 it is InvalidEpisodeDuration. *)
Theorem calculateWatchTime_failure (v : value) :
  match first_failing coded_condition v with
  | Some f => calculateWatchTime v = Throw (failure_message f)
  | None => exists r, calculateWatchTime v = Normal r
  end
  /\ ((exists m, calculateWatchTime v = Throw m)
      <-> exists f, coded_condition f v = true)
  /\ (forall f g, failure_message f = failure_message g -> f = g)
  /\ calculateWatchTime
       (options_of (PNum (Fin 20000)) (PNum (Fin (-5))) false false)
     = Throw (failure_message InvalidEpisodeDuration).
Proof.
  assert (match first_failing coded_condition v with
          | Some f => calculateWatchTime v = Throw (failure_message f)
          | None => exists r, calculateWatchTime v = Normal r
          end) as Hfirst.
  { pose proof (validateCalculationInput_first_failing v) as Hv.
    destruct (first_failing coded_condition v) as [f|].
    - now apply calculateWatchTime_invalid.
    - apply calculateWatchTime_valid. now rewrite Hv. }
  split; [exact Hfirst|]. split; [|split].
  - unfold first_failing in Hfirst. split.
    + intros [m Hm].
      destruct (List.find _ checks) as [f|] eqn:Hfind.
      * apply List.find_some in Hfind. exists f. apply Hfind.
      * destruct Hfirst as [r Hr]. congruence.
    + intros [f Hf].
      destruct (List.find _ checks) as [g|] eqn:Hfind; [eauto|].
      apply List.find_none with (x := f) in Hfind; [congruence|].
      destruct f; cbn; tauto.
  - intros f g. destruct f, g; (reflexivity || discriminate).
  - reflexivity.
Qed.

Lemma calculateWatchTime_failure_witness :
  (exists m,
     calculateWatchTime
       (options_of (PNum (Fin 12)) (PNum (Fin 1441)) false false) = Throw m)
  /\ coded_condition EpisodeDurationTooLarge
       (options_of (PNum (Fin 12)) (PNum (Fin 1441)) false false) = true.
Proof.
  split; [|reflexivity].
  apply (proj1 (proj2 (calculateWatchTime_failure
                         (options_of (PNum (Fin 12)) (PNum (Fin 1441))
                            false false)))).
  exists EpisodeDurationTooLarge. reflexivity.
Defined.

(** C4, as the specification states it, fails for a NaN duration: NaN is
    there and is not a positive number, so the fourth condition holds, and
    yet the calculation succeeds, with the default duration. *)
Lemma calculateWatchTime_NaN_duration :
  let v := options_of (PNum (Fin 12)) (PNum NaN) false false in
  claimed_condition InvalidEpisodeDuration v = true
  /\ first_failing claimed_condition v = Some InvalidEpisodeDuration
  /\ exists r,
       calculateWatchTime v = Normal r
       /\ bd_episodeDuration (breakdown r) = PNum (Fin 24)
       /\ baseMinutes r = Num.mul (Fin 12) (Fin 24).
Proof.
  cbv zeta. split; [reflexivity|]. split; [reflexivity|].
  eexists. split; [reflexivity|]. split; reflexivity.
Qed.

(** A destructured flag is truthy exactly when the property is. *)
Lemma truthy_with_default (p : prim) :
  truthy (with_default p (PBool false)) = truthy p.
Proof. now destruct p. Qed.

(** C3.  For every options record whose [episodes] is a number from 1 to
    10000 and whose [episodeDuration] is a number above 0 and at most 1440,
    [calculateWatchTime] succeeds; [baseMinutes] is the product
    [episodes * episodeDuration], [openingMinutes] is [episodes * 1.5] when
    [includeOpening] holds and 0 otherwise, [endingMinutes] likewise, and
    [totalMinutes] is the sum of the three, each product and each sum
    being the binary64 one, as JavaScript computes the formula.  When
    [episodes] and [episodeDuration] are whole numbers, nothing is rounded:
    the four numbers are those of the formula in exact arithmetic. *)
Theorem calculateWatchTime_total (o : object) (x y : Q) :
  get o "episodes" = PNum (Fin x) ->
  get o "episodeDuration" = PNum (Fin y) ->
  (1 <= x <= 10000)%Q ->
  (0 < y <= 1440)%Q ->
  exists r,
    calculateWatchTime (VObject o) = Normal r
    /\ baseMinutes r = Num.binary64 (x * y)
    /\ openingMinutes r =
         (if truthy (get o "includeOpening")
          then Num.binary64 (x * 1.5) else Fin 0)
    /\ endingMinutes r =
         (if truthy (get o "includeEnding")
          then Num.binary64 (x * 1.5) else Fin 0)
    /\ totalMinutes r =
         Num.add (Num.add (baseMinutes r) (openingMinutes r))
           (endingMinutes r)
    /\ (whole x = true -> whole y = true ->
        exists b p n t,
          baseMinutes r = Fin b /\ openingMinutes r = Fin p
          /\ endingMinutes r = Fin n /\ totalMinutes r = Fin t
          /\ (b == x * y)%Q
          /\ (p == if truthy (get o "includeOpening") then x * 1.5 else 0)%Q
          /\ (n == if truthy (get o "includeEnding") then x * 1.5 else 0)%Q
          /\ (t == b + p + n)%Q).
Proof.
  intros He Hd Hx Hy.
  assert (validateCalculationInput (VObject o)
          = {| isValid := true; error := None |}) as Hvalid.
  { rewrite validateCalculationInput_first_failing.
    unfold first_failing, coded_condition, condition, checks.
    cbn [property List.find]. rewrite He, Hd.
    cbn [present not_a_number_or_at_most_0 andb].
    assert (Num.lt (Fin x) (Fin 0) = false) as ->
      by (apply lt_Fin_false; lra).
    assert (Num.strict_eq (Fin x) (Fin 0) = false) as ->.
    { apply not_true_iff_false. rewrite strict_eq_Fin. lra. }
    assert (Num.le (Fin y) (Fin 0) = false) as ->.
    { apply not_true_iff_false. rewrite le_Fin. lra. }
    assert (Num.gt (Fin x) (Fin 10000) = false) as ->
      by (apply lt_Fin_false; lra).
    assert (Num.gt (Fin y) (Fin 1440) = false) as ->
      by (apply lt_Fin_false; lra).
    reflexivity. }
  assert (bool_decide (typeof_prim (PNum (Fin y)) = TNumber)
          && js_gt (PNum (Fin y)) (PNum (Fin 0)) = true) as Hfinal.
  { unfold js_gt. cbn [ToNumber typeof_prim andb].
    rewrite bool_decide_eq_true_2 by reflexivity.
    apply lt_Fin. lra. }
  unfold calculateWatchTime. rewrite Hvalid.
  cbn [isValid negb property]. rewrite He, Hd, Hfinal.
  rewrite !truthy_with_default.
  eexists. split; [reflexivity|].
  cbn [baseMinutes openingMinutes endingMinutes totalMinutes].
  unfold js_mul, OPENING_THEME_DURATION, ENDING_THEME_DURATION.
  cbn [ToNumber Num.mul].
  split; [reflexivity|]. split; [reflexivity|]. split; [reflexivity|].
  split; [reflexivity|].
  intros Hwx Hwy. apply whole_eq in Hwx, Hwy.
  assert (0 <= x * y <= 14400000)%Q as Hb by nra.
  rewrite (mul_exact x y (Qfloor x) (2 * Qfloor y));
    [|lra|lra|apply Qle_lt_trans with 14400000%Q; [lra|reflexivity]
     |exact Hwx|rewrite inject_Z_mult, <- Hwy; ring].
  destruct (theme_minutes_exact (truthy (get o "includeOpening")) x (Qfloor x))
    as (p & zp & -> & Hp & Hzp & Hpb); [lra|exact Hwx|].
  destruct (theme_minutes_exact (truthy (get o "includeEnding")) x (Qfloor x))
    as (n & zn & -> & Hn & Hzn & Hnb); [lra|exact Hwx|].
  pose proof (Qred_correct (x * y)) as Hred.
  rewrite (add_exact (Qred (x * y)) p (2 * (Qfloor x * Qfloor y)) zp);
    [|lra|lra|apply Qle_lt_trans with 14415000%Q; [lra|reflexivity]
     |rewrite Hred, !inject_Z_mult, <- Hwx, <- Hwy; ring|exact Hzp].
  pose proof (Qred_correct (Qred (x * y) + p)) as Hsum.
  rewrite (add_exact (Qred (Qred (x * y) + p)) n
             (2 * (Qfloor x * Qfloor y) + zp) zn);
    [|lra|lra|apply Qle_lt_trans with 14430000%Q; [lra|reflexivity]
     |rewrite Hsum, Hred, inject_Z_plus, !inject_Z_mult, <- Hwx, <- Hwy, <- Hzp;
      ring|exact Hzn].
  eexists _, _, _, _.
  split; [reflexivity|]. split; [reflexivity|]. split; [reflexivity|].
  split; [reflexivity|].
  split; [exact Hred|]. split; [exact Hp|]. split; [exact Hn|].
  rewrite Qred_correct, Hsum. reflexivity.
Qed.

Lemma calculateWatchTime_total_witness :
  (exists r t,
     calculateWatchTime (options_of (PNum (Fin 12)) (PNum (Fin 24)) true true)
       = Normal r
     /\ totalMinutes r = Fin t /\ (t == 324)%Q)
  /\ (exists r,
        calculateWatchTime
          (options_of (PNum (Fin 5))
             (PNum (Fin (5826532017910579 # 281474976710656))) false false)
          = Normal r
        /\ Num.strict_eq (baseMinutes r) (Fin 103.5) = true).
Proof.
  split.
  - destruct (calculateWatchTime_total
                (<["episodes" := PNum (Fin 12)]>
                 (<["episodeDuration" := PNum (Fin 24)]>
                  (<["includeOpening" := PBool true]>
                   (<["includeEnding" := PBool true]> ∅))))
                12 24)
      as (r & Hr & _ & _ & _ & _ & Hwhole);
      [reflexivity|reflexivity|split; discriminate|split; [reflexivity|discriminate]|].
    destruct Hwhole as (b & p & n & t & _ & _ & _ & Ht & Hb & Hp & Hn & Hsum);
      [reflexivity|reflexivity|].
    exists r, t. split; [exact Hr|]. split; [exact Ht|].
    rewrite Hsum, Hb, Hp, Hn. reflexivity.
  - destruct (calculateWatchTime_total
                (<["episodes" := PNum (Fin 5)]>
                 (<["episodeDuration" :=
                      PNum (Fin (5826532017910579 # 281474976710656))]>
                  (<["includeOpening" := PBool false]>
                   (<["includeEnding" := PBool false]> ∅))))
                5 (5826532017910579 # 281474976710656))
      as (r & Hr & Hbase & _);
      [reflexivity|reflexivity|split; discriminate|split; [reflexivity|discriminate]|].
    exists r. split; [exact Hr|]. rewrite Hbase. vm_compute. reflexivity.
Defined.

(** ** The session *)

(** Sequencing, unfolded: the second statement runs if the first returns. *)
Lemma bind_eq {A B : Type} (m : M A) (f : A -> M B) (s : state) :
  (m ≫= f) s
  = match m s with
    | (Normal a, s') => f a s'
    | (Throw e, s') => (Throw e, s')
    end.
Proof. reflexivity. Qed.

Lemma log_log (s : state) (a b : list event) : log (log s a) b = log s (a ++ b).
Proof. unfold log. cbn. now rewrite app_assoc. Qed.

Lemma log_nil (s : state) : log s [] = s.
Proof. destruct s. unfold log. cbn. now rewrite app_nil_r. Qed.

(** The loop of [recalculate] on its normal path: every listener is called
    with the current result and options, and the loop returns. *)
Lemma forEach_current (listeners : list callback) (s : state) :
  forEach listeners (fun listener =>
    try_catch
      (result ← gets currentResult;
       options ← gets currentOptions;
       call_listener listener result options None)
      (fun error =>
         console_error "Error in time calculator listener:" error)) s
  = (Normal (),
     log s (listener_events listeners (currentResult s) (currentOptions s)
              None)).
Proof.
  revert s. induction listeners as [|l rest IH]; intros s.
  - cbn. now rewrite log_nil.
  - cbn [forEach listener_events flat_map].
    rewrite bind_eq.
    assert (try_catch
              (result ← gets currentResult;
               options ← gets currentOptions;
               call_listener l result options None)
              (fun error =>
                 console_error "Error in time calculator listener:" error) s
            = (Normal (),
               log s (ENotify l (currentResult s) (currentOptions s) None
                      :: match cb_body l (currentResult s) (currentOptions s)
                                 None with
                         | Some e =>
                             [EConsoleError
                                "Error in time calculator listener:" e]
                         | None => []
                         end))) as ->.
    { run_guarded_call.
      destruct (cb_body l (currentResult s) (currentOptions s) None); cbn;
        [now rewrite <- app_assoc|reflexivity]. }
    rewrite IH, log_log. reflexivity.
Qed.

(** The loops of the error path and of [reset]: every listener is called
    with no result, the options and the message, and the loop returns. *)
Lemma forEach_cleared (listeners : list callback) (message : option string)
    (s : state) :
  forEach listeners (fun listener =>
    try_catch
      (options ← gets currentOptions;
       call_listener listener None options message)
      (fun error =>
         console_error "Error in time calculator listener:" error)) s
  = (Normal (),
     log s (listener_events listeners None (currentOptions s) message)).
Proof.
  revert s. induction listeners as [|l rest IH]; intros s.
  - cbn. now rewrite log_nil.
  - cbn [forEach listener_events flat_map].
    rewrite bind_eq.
    assert (try_catch
              (options ← gets currentOptions;
               call_listener l None options message)
              (fun error =>
                 console_error "Error in time calculator listener:" error) s
            = (Normal (),
               log s (ENotify l None (currentOptions s) message
                      :: match cb_body l None (currentOptions s) message with
                         | Some e =>
                             [EConsoleError
                                "Error in time calculator listener:" e]
                         | None => []
                         end))) as ->.
    { run_guarded_call.
      destruct (cb_body l None (currentOptions s) message); cbn;
        [now rewrite <- app_assoc|reflexivity]. }
    rewrite IH, log_log. reflexivity.
Qed.

(** [recalculate] always returns, and leaves the state [recalculated]. *)
Lemma recalculate_eq (s : state) :
  recalculate s = (Normal (), recalculated s).
Proof.
  unfold recalculate, recalculated, recomputed, recompute_events.
  unfold try_catch at 1. unfold mbind at 1, M_bind. cbn [gets].
  destruct (js_gt (get (currentOptions s) "episodes") (PNum (Fin 0))).
  - unfold call_calculateWatchTime.
    destruct (calculateWatchTime (VObject (currentOptions s))) as [r|m].
    + unfold mbind at 1, M_bind. unfold mbind at 1, M_bind.
      unfold mbind at 1, M_bind. cbn [emit mret M_ret set_currentResult].
      unfold mbind at 1, M_bind. cbn [gets].
      rewrite forEach_current. unfold log. cbn. now rewrite <- app_assoc.
    + unfold mbind at 1, M_bind. unfold mbind at 1, M_bind.
      unfold mbind at 1, M_bind. cbn [emit throw].
      unfold mbind at 1, M_bind. unfold console_error at 1. cbn [emit].
      unfold mbind at 1, M_bind. cbn [set_currentResult].
      unfold mbind at 1, M_bind. cbn [gets].
      rewrite forEach_cleared. unfold log. cbn.
      now rewrite <- !app_assoc.
  - unfold mbind at 1, M_bind. cbn [set_currentResult].
    unfold mbind at 1, M_bind. cbn [gets].
    rewrite forEach_current. unfold log. cbn. reflexivity.
Qed.

(** A call that recomputes assigns its properties and recomputes. *)
Lemma perform_recomputes (c : call) (s : state) :
  recomputes c = true ->
  perform c s
  = (Normal (), recalculated (with_options s (assigned c (currentOptions s)))).
Proof.
  intros Hc. rewrite <- recalculate_eq.
  destruct c; try discriminate; cbn [perform assigned].
  - unfold updateAnime. cbn [recomputes] in Hc. rewrite Hc. reflexivity.
  - reflexivity.
  - reflexivity.
  - reflexivity.
  - unfold with_options. now destruct s.
Qed.

Lemma reset_eq (s : state) :
  reset s
  = (Normal (),
     {| currentOptions := baseline;
        currentResult := None;
        changeListeners := changeListeners s;
        history :=
          history s ++ listener_events (changeListeners s) None baseline None |}).
Proof.
  unfold reset. unfold mbind at 1, M_bind. cbn [set_currentOptions].
  unfold mbind at 1, M_bind. cbn [set_currentResult].
  unfold mbind at 1, M_bind. cbn [gets].
  rewrite forEach_cleared. reflexivity.
Qed.

Lemma addChangeListener_eq (f : callback) (s : state) :
  addChangeListener (VFunction f) s
  = (Normal (),
     {| currentOptions := currentOptions s;
        currentResult := currentResult s;
        changeListeners := changeListeners s ++ [f];
        history :=
          history s
            ++ listener_events [f] (currentResult s) (currentOptions s) None |}).
Proof.
  pose proof (forEach_current [f]
                {| currentOptions := currentOptions s;
                   currentResult := currentResult s;
                   changeListeners := changeListeners s ++ [f];
                   history := history s |}) as Hloop.
  cbn [forEach] in Hloop. unfold mbind at 1, M_bind in Hloop.
  unfold addChangeListener. unfold mbind at 1, M_bind. cbn [gets].
  unfold mbind at 1, M_bind. cbn [set_changeListeners].
  destruct (try_catch _ _ _) as [[[]|e] s'] eqn:Htry.
  - cbn [mret M_ret] in Hloop. injection Hloop as ->. reflexivity.
  - discriminate.
Qed.

Lemma notifications_app (a b : list event) :
  notifications (a ++ b) = (notifications a ++ notifications b)%list.
Proof. apply List.filter_app. Qed.

Lemma calculations_app (a b : list event) :
  calculations (a ++ b) = (calculations a ++ calculations b)%list.
Proof. apply omap_app. Qed.

(** Calling the listeners leaves one notification for each, in order, and
    does not enter the calculation function. *)
Lemma notifications_listener_events (listeners : list callback)
    (r : option TimeCalculationResult) (o : object) (m : option string) :
  notifications (listener_events listeners r o m)
  = map (fun l => ENotify l r o m) listeners.
Proof.
  induction listeners as [|l rest IH]; [reflexivity|].
  cbn [listener_events flat_map map]. unfold listener_events in IH.
  rewrite <- IH. destruct (cb_body l r o m); reflexivity.
Qed.

Lemma calculations_listener_events (listeners : list callback)
    (r : option TimeCalculationResult) (o : object) (m : option string) :
  calculations (listener_events listeners r o m) = [].
Proof.
  induction listeners as [|l rest IH]; [reflexivity|].
  cbn [listener_events flat_map]. unfold listener_events in IH.
  destruct (cb_body l r o m); cbn; exact IH.
Qed.

Lemma notifications_recompute_events (o : object) :
  notifications (recompute_events o) = [].
Proof.
  unfold recompute_events.
  destruct (js_gt _ _); [|reflexivity].
  now destruct (calculateWatchTime _).
Qed.

(** The episode count a mutating operation leaves in the options is the
    one it works with. *)
Lemma episodes_after (c : call) (s : state) :
  mutating c = true ->
  get (currentOptions (snd (perform c s))) "episodes" = episodes_seen c s.
Proof.
  intros Hc. destruct (recomputes c) eqn:Hr.
  - rewrite (perform_recomputes c s Hr). unfold recalculated, with_options.
    cbn [snd currentOptions]. unfold get.
    destruct c; try discriminate; cbn [assigned episodes_seen].
    + now rewrite lookup_insert_ne, lookup_insert_eq.
    + now rewrite lookup_insert_ne.
    + now rewrite lookup_insert_ne.
    + now rewrite !lookup_insert_ne.
    + reflexivity.
  - destruct c; cbn [mutating recomputes] in Hc, Hr; try congruence.
    cbn [perform]. now rewrite reset_eq.
Qed.

(** C5.  For every state of the session and every mutating operation (an
    update of the anime data, a change of a flag or of both, a manual
    recomputation, a reset) whose episode count is not above 0 (the stored
    one, or for [updateAnime] the one it is given, 0 when absent): the
    operation returns, the current result is the "no result" value, the
    calculation function was not entered, and every listener was called
    once, in order, with no result, the options and no message. *)
Theorem no_episodes_no_result (s : state) (c : call) :
  mutating c = true ->
  js_gt (episodes_seen c s) (PNum (Fin 0)) = false ->
  fst (perform c s) = Normal ()
  /\ currentResult (snd (perform c s)) = None
  /\ exists new,
       history (snd (perform c s)) = history s ++ new
       /\ calculations new = []
       /\ notifications new
          = map (fun l => ENotify l None (currentOptions (snd (perform c s)))
                            None)
              (changeListeners s).
Proof.
  intros Hc. rewrite <- (episodes_after c s Hc).
  destruct (recomputes c) eqn:Hr.
  - rewrite (perform_recomputes c s Hr). unfold recalculated, with_options.
    cbn [fst snd currentOptions currentResult changeListeners history].
    set (o := assigned c (currentOptions s)). intros Ho.
    unfold recomputed, recompute_events. rewrite Ho. cbn [fst snd].
    repeat split. eexists. split; [reflexivity|].
    rewrite app_nil_l, calculations_listener_events,
      notifications_listener_events. split; reflexivity.
  - destruct c; cbn [mutating recomputes] in Hc, Hr; try congruence.
    cbn [perform]. rewrite reset_eq. intros _.
    cbn [fst snd currentResult history currentOptions].
    repeat split. eexists. split; [reflexivity|].
    rewrite calculations_listener_events, notifications_listener_events.
    split; reflexivity.
Qed.

Lemma no_episodes_no_result_witness :
  currentResult
    (snd (perform (UpdateAnime (anime 0 24))
            (snd (addChangeListener (VFunction (quiet 0))
                    (createTimeCalculator PUndefined)))))
  = None
  /\ currentResult
       (snd (perform (SetIncludeOpening (PBool true))
               (createTimeCalculator PUndefined)))
     = None.
Proof.
  split.
  - apply (no_episodes_no_result
             (snd (addChangeListener (VFunction (quiet 0))
                     (createTimeCalculator PUndefined)))
             (UpdateAnime (anime 0 24))); reflexivity.
  - apply (no_episodes_no_result (createTimeCalculator PUndefined)
             (SetIncludeOpening (PBool true))); reflexivity.
Defined.

(** Every call of the session returns: no exception escapes. *)
Lemma perform_returns (c : call) (s : state) : fst (perform c s) = Normal ().
Proof.
  destruct (recomputes c) eqn:Hr; [now rewrite perform_recomputes|].
  destruct c; try discriminate; cbn [perform].
  - unfold updateAnime. cbn [recomputes] in Hr. now rewrite Hr.
  - reflexivity.
  - reflexivity.
  - destruct listener as [p|o|f]; [reflexivity|reflexivity|].
    now rewrite addChangeListener_eq.
  - unfold removeChangeListener. unfold mbind, M_bind. cbn [gets].
    now destruct (indexOf _ _).
  - now rewrite reset_eq.
Qed.

(** C6, as the code has it.  Whenever a mutating operation leaves options
    whose [episodes] is above 0 and on which the calculation function fails
    with a message, it returns, the current result is the "no result"
    value, and every listener was called once, in order, with no result,
    the options and that message.  (And every call returns, whatever the
    state.) *)
Theorem failure_is_contained (s : state) (c : call) (m : string) :
  mutating c = true ->
  js_gt (get (currentOptions (snd (perform c s))) "episodes") (PNum (Fin 0))
    = true ->
  calculateWatchTime (VObject (currentOptions (snd (perform c s)))) = Throw m ->
  fst (perform c s) = Normal ()
  /\ currentResult (snd (perform c s)) = None
  /\ exists new,
       history (snd (perform c s)) = history s ++ new
       /\ notifications new
          = map (fun l => ENotify l None (currentOptions (snd (perform c s)))
                            (Some m))
              (changeListeners s).
Proof.
  intros Hc Ho Hm. split; [apply perform_returns|]. revert Ho Hm.
  destruct (recomputes c) eqn:Hr.
  - rewrite (perform_recomputes c s Hr). unfold recalculated, with_options.
    cbn [fst snd currentOptions currentResult changeListeners history].
    set (o := assigned c (currentOptions s)). intros Ho Hm.
    unfold recomputed, recompute_events. rewrite Ho, Hm. cbn [fst snd].
    split; [reflexivity|]. eexists. split; [reflexivity|].
    rewrite notifications_app, notifications_listener_events. reflexivity.
  - destruct c; cbn [mutating recomputes] in Hc, Hr; try congruence.
    cbn [perform]. rewrite reset_eq. cbn [snd currentOptions]. discriminate.
Qed.

Lemma failure_is_contained_witness :
  notifications
    (history
       (snd (perform (UpdateAnime (anime 10001 24))
               (snd (addChangeListener (VFunction (faulty 0))
                       (createTimeCalculator PUndefined))))))
  <> [].
Proof.
  destruct (failure_is_contained
              (snd (addChangeListener (VFunction (faulty 0))
                      (createTimeCalculator PUndefined)))
              (UpdateAnime (anime 10001 24))
              "Episode count exceeds reasonable limit (10,000 episodes)")
    as (_ & _ & new & -> & Hnew); try reflexivity.
  rewrite notifications_app, Hnew. cbn. discriminate.
Defined.

(** C6, as the specification states it, fails when [episodes] is 0: the
    options make the calculation function fail, and yet a manual
    recomputation calls the listener without a message. *)
Lemma zero_episodes_no_message :
  let s :=
    run [AddChangeListener (VFunction (quiet 0)); UpdateAnime (anime 0 24)]
      (createTimeCalculator PUndefined) in
  calculateWatchTime (VObject (currentOptions s))
    = Throw "Cannot calculate time for anime with 0 episodes"
  /\ changeListeners s = [quiet 0]
  /\ history (snd (perform Recalculate s))
     = history s ++ [ENotify (quiet 0) None (currentOptions s) None].
Proof. cbv zeta. repeat split. Qed.

(** C8.  Registering a callback appends it to the listeners and calls it
    once, then and there, with the current result and options and no
    message; no other listener is called, the calculation function is not
    entered, and result and options stay as they were. *)
Theorem addChangeListener_notifies (s : state) (f : callback) :
  fst (addChangeListener (VFunction f) s) = Normal ()
  /\ changeListeners (snd (addChangeListener (VFunction f) s))
     = changeListeners s ++ [f]
  /\ currentResult (snd (addChangeListener (VFunction f) s)) = currentResult s
  /\ currentOptions (snd (addChangeListener (VFunction f) s))
     = currentOptions s
  /\ exists new,
       history (snd (addChangeListener (VFunction f) s)) = history s ++ new
       /\ notifications new
          = [ENotify f (currentResult s) (currentOptions s) None]
       /\ calculations new = [].
Proof.
  rewrite addChangeListener_eq. cbn [fst snd]. repeat split.
  eexists. split; [reflexivity|].
  rewrite notifications_listener_events, calculations_listener_events.
  split; reflexivity.
Qed.

Lemma notified_times_app (a b : list event) :
  notified_times (a ++ b) = (notified_times a ++ notified_times b)%list.
Proof. apply omap_app. Qed.

Lemma notified_times_listener_events (listeners : list callback)
    (r : option TimeCalculationResult) (o : object) (m : option string) :
  notified_times (listener_events listeners r o m)
  = map (fun _ => formattedTime <$> r) listeners.
Proof.
  induction listeners as [|l rest IH]; [reflexivity|].
  cbn [listener_events flat_map map]. unfold listener_events in IH.
  rewrite <- IH. destruct (cb_body l r o m); reflexivity.
Qed.

Lemma notified_times_recompute_events (o : object) :
  notified_times (recompute_events o) = [].
Proof.
  unfold recompute_events.
  destruct (js_gt _ _); [|reflexivity].
  now destruct (calculateWatchTime _).
Qed.

(** What a recomputing call adds to the history, and the state it leaves. *)
Lemma perform_notified (c : call) (s : state) :
  recomputes c = true ->
  currentOptions (snd (perform c s)) = assigned c (currentOptions s)
  /\ changeListeners (snd (perform c s)) = changeListeners s
  /\ exists new,
       history (snd (perform c s)) = history s ++ new
       /\ notified_times new
          = map (fun _ =>
                   formattedTime
                     <$> fst (recomputed (assigned c (currentOptions s))))
              (changeListeners s).
Proof.
  intros Hc. rewrite (perform_recomputes c s Hc).
  unfold recalculated, with_options.
  cbn [snd currentOptions currentResult changeListeners history].
  repeat split. eexists. split; [reflexivity|].
  now rewrite notified_times_app, notified_times_recompute_events,
    notified_times_listener_events.
Qed.

(** C9.  From a fresh session with one registered listener, the calls
    [updateAnime({episodes: 26, duration: 24})], [setIncludeOpening(true)],
    [setIncludeEnding(true)], [setIncludeOpening(false)] add exactly four
    notifications to the history, whose results carry the formatted times
    "10 hours 24 minutes", "11 hours 3 minutes", "11 hours 42 minutes",
    "11 hours 3 minutes", in this order. *)
Theorem session_scenario (f : callback) :
  let registered :=
    snd (addChangeListener (VFunction f) (createTimeCalculator PUndefined)) in
  exists new,
    history
      (run [UpdateAnime (anime 26 24); SetIncludeOpening (PBool true);
            SetIncludeEnding (PBool true); SetIncludeOpening (PBool false)]
         registered)
    = history registered ++ new
    /\ notified_times new
       = [Some "10 hours 24 minutes"; Some "11 hours 3 minutes";
          Some "11 hours 42 minutes"; Some "11 hours 3 minutes"].
Proof.
  cbv zeta. rewrite addChangeListener_eq. cbn [snd run foldl].
  set (s0 := {| currentOptions := _ |}).
  destruct (perform_notified (UpdateAnime (anime 26 24)) s0 eq_refl)
    as (Ho1 & Hl1 & new1 & Hh1 & Hn1).
  set (s1 := snd (perform _ s0)) in *.
  destruct (perform_notified (SetIncludeOpening (PBool true)) s1 eq_refl)
    as (Ho2 & Hl2 & new2 & Hh2 & Hn2).
  set (s2 := snd (perform _ s1)) in *.
  destruct (perform_notified (SetIncludeEnding (PBool true)) s2 eq_refl)
    as (Ho3 & Hl3 & new3 & Hh3 & Hn3).
  set (s3 := snd (perform _ s2)) in *.
  destruct (perform_notified (SetIncludeOpening (PBool false)) s3 eq_refl)
    as (Ho4 & Hl4 & new4 & Hh4 & Hn4).
  set (s4 := snd (perform _ s3)) in *.
  exists (new1 ++ new2 ++ new3 ++ new4).
  split.
  - rewrite Hh4, Hh3, Hh2, Hh1. now rewrite <- !app_assoc.
  - rewrite !notified_times_app, Hn1, Hn2, Hn3, Hn4.
    rewrite Hl3, Hl2, Hl1, Ho3, Ho2, Ho1.
    vm_compute. reflexivity.
Qed.

(** A call that does not recompute leaves result and options as they
    were, or leaves no result; it does not enter the calculation
    function. *)
Lemma perform_other (c : call) (s : state) :
  recomputes c = false ->
  (currentResult (snd (perform c s)) = None
   \/ (currentResult (snd (perform c s)) = currentResult s
       /\ currentOptions (snd (perform c s)) = currentOptions s))
  /\ exists new,
       history (snd (perform c s)) = history s ++ new
       /\ calculations new = [].
Proof.
  intros Hc. destruct c; try discriminate; cbn [perform].
  - unfold updateAnime. cbn [recomputes] in Hc. rewrite Hc. state_unchanged.
  - state_unchanged.
  - state_unchanged.
  - destruct listener as [p|o|f]; [state_unchanged|state_unchanged|].
    rewrite addChangeListener_eq.
    cbn [snd currentResult currentOptions history].
    split; [now right|]. eexists. split; [reflexivity|].
    apply calculations_listener_events.
  - unfold removeChangeListener. rewrite bind_eq. cbn [gets].
    destruct (indexOf _ _); state_unchanged.
  - rewrite reset_eq. cbn [snd currentResult currentOptions history].
    split; [now left|]. eexists. split; [reflexivity|].
    apply calculations_listener_events.
Qed.

(** No call brings a result back without recomputing. *)
Lemma run_without_recomputing (calls : list call) (s : state) :
  forallb (fun c => negb (recomputes c)) calls = true ->
  currentResult s = None ->
  calculations (history s) = [] ->
  currentResult (run calls s) = None
  /\ calculations (history (run calls s)) = [].
Proof.
  revert s. induction calls as [|c calls IH]; intros s Hcalls Hr Hh.
  - now split.
  - cbn [forallb] in Hcalls. apply andb_true_iff in Hcalls as [Hc Hcalls].
    apply negb_true_iff in Hc.
    destruct (perform_other c s Hc) as (Hres & new & Hnew & Hcalc).
    cbn [run foldl]. apply (IH (snd (perform c s)) Hcalls).
    + destruct Hres as [Hres|[Hres _]]; congruence.
    + now rewrite Hnew, calculations_app, Hh, Hcalc.
Qed.

(** C10.  Whatever the initial options, also with [episodes] above 0, a
    freshly constructed session has no result, has called no listener and
    has not entered the calculation function; and as long as no call
    recomputes (an update of the anime data, a change of a flag, a manual
    recomputation), there is still no result and the calculation function
    has still not been entered. *)
Theorem no_result_at_construction (initialOptions : value)
    (calls : list call) :
  forallb (fun c => negb (recomputes c)) calls = true ->
  fst (getCurrentResult (createTimeCalculator initialOptions)) = Normal None
  /\ history (createTimeCalculator initialOptions) = []
  /\ currentResult (run calls (createTimeCalculator initialOptions)) = None
  /\ calculations (history (run calls (createTimeCalculator initialOptions)))
     = [].
Proof.
  intros Hcalls. split; [reflexivity|]. split; [reflexivity|].
  now apply run_without_recomputing.
Qed.

Lemma no_result_at_construction_witness :
  get (currentOptions (createTimeCalculator (anime 12 24))) "episodes"
    = PNum (Fin 12)
  /\ currentResult
       (run [GetCurrentResult; AddChangeListener (VFunction (quiet 0));
             GetCurrentOptions; Reset]
          (createTimeCalculator (anime 12 24)))
     = None.
Proof.
  split; [reflexivity|].
  apply (no_result_at_construction (anime 12 24)
           [GetCurrentResult; AddChangeListener (VFunction (quiet 0));
            GetCurrentOptions; Reset]).
  reflexivity.
Defined.

(** ** What the session keeps true *)

Lemma recalculated_result_is_current (s : state) :
  result_is_current (recalculated s).
Proof.
  intros r. unfold recalculated, recomputed.
  cbn [currentResult currentOptions].
  destruct (js_gt (get (currentOptions s) "episodes") (PNum (Fin 0)));
    [|discriminate].
  destruct (calculateWatchTime (VObject (currentOptions s))) as [r'|m];
    cbn [fst]; [|discriminate].
  intros [= ->]. now split.
Qed.

Lemma perform_result_is_current (c : call) (s : state) :
  result_is_current s -> result_is_current (snd (perform c s)).
Proof.
  intros Hs. destruct (recomputes c) eqn:Hc.
  - rewrite (perform_recomputes c s Hc). apply recalculated_result_is_current.
  - destruct (perform_other c s Hc) as ([Hnone|[Hres Hopt]] & _).
    + intros r. rewrite Hnone. discriminate.
    + intros r. rewrite Hres, Hopt. apply Hs.
Qed.

Lemma run_result_is_current (calls : list call) (s : state) :
  result_is_current s -> result_is_current (run calls s).
Proof.
  revert s. induction calls as [|c calls IH]; intros s Hs; [exact Hs|].
  cbn [run foldl]. apply IH. now apply perform_result_is_current.
Qed.

(** A successful calculation passed the validation, and was computed with
    the given duration when that is a number above 0, and with the default
    otherwise. *)
Lemma calculateWatchTime_normal (v : value) (r : TimeCalculationResult) :
  calculateWatchTime v = Normal r ->
  isValid (validateCalculationInput v) = true
  /\ bd_episodeDuration (breakdown r)
     = (if bool_decide (typeof_prim (property v "episodeDuration") = TNumber)
           && js_gt (property v "episodeDuration") (PNum (Fin 0))
        then property v "episodeDuration"
        else PNum DEFAULT_EPISODE_DURATION).
Proof.
  unfold calculateWatchTime.
  destruct (isValid (validateCalculationInput v)); [|discriminate].
  cbn [negb]. intros [= <-]. now split.
Qed.

(** What a successful calculation on an episode count above 0 says of the
    options: the count is a finite number, at most 10000; a stored
    duration, when it is a number and not NaN, is above 0 and at most
    1440; the duration the result was computed with is above 0 and at
    most 1440. *)
Lemma calculateWatchTime_bounds (o : object) (r : TimeCalculationResult) :
  js_gt (get o "episodes") (PNum (Fin 0)) = true ->
  calculateWatchTime (VObject o) = Normal r ->
  (exists x, get o "episodes" = PNum (Fin x) /\ (0 < x <= 10000)%Q)
  /\ match get o "episodeDuration" with
     | PNum (Fin y) => (0 < y <= 1440)%Q
     | PNum NaN | PUndefined | PNull => True
     | _ => False
     end
  /\ (exists y,
        bd_episodeDuration (breakdown r) = PNum (Fin y)
        /\ (0 < y <= 1440)%Q).
Proof.
  intros Hpos Hcalc.
  apply calculateWatchTime_normal in Hcalc as [Hvalid ->].
  rewrite validateCalculationInput_first_failing in Hvalid.
  unfold first_failing, coded_condition, condition, checks in Hvalid.
  cbn [property List.find] in *.
  destruct (get o "episodes") as [| |b|e|s n]; try discriminate.
  unfold js_gt in Hpos. cbn [ToNumber] in Hpos.
  destruct (Num.lt e (Fin 0)); [discriminate|].
  destruct (Num.strict_eq e (Fin 0)); [discriminate|].
  assert (Num.gt e (Fin 10000) = false ->
          exists x, e = Fin x /\ (0 < x <= 10000)%Q) as Hcount.
  { intros He. destruct e as [| | |x]; try discriminate.
    apply lt_Fin in Hpos. apply lt_Fin_false in He. eauto. }
  destruct (get o "episodeDuration") as [| |b|d|s n];
    cbn [present not_a_number_or_at_most_0 andb] in Hvalid;
    try discriminate.
  - destruct (Num.gt e (Fin 10000)); [discriminate|].
    destruct (Hcount eq_refl) as (x & -> & Hx).
    split; [eauto|]. split; [exact I|].
    exists 24%Q. split; [reflexivity|lra].
  - destruct (Num.gt e (Fin 10000)); [discriminate|].
    destruct (Hcount eq_refl) as (x & -> & Hx).
    split; [eauto|]. split; [exact I|].
    exists 24%Q. split; [reflexivity|lra].
  - destruct (Num.le d (Fin 0)) eqn:Hd0; [discriminate|].
    destruct (Num.gt e (Fin 10000)); [discriminate|].
    destruct (Num.gt d (Fin 1440)) eqn:Hd; [discriminate|].
    destruct (Hcount eq_refl) as (x & -> & Hx).
    split; [eauto|].
    destruct d as [| | |y]; try discriminate.
    + split; [exact I|]. exists 24%Q. split; [reflexivity|lra].
    + apply lt_Fin_false in Hd.
      apply not_true_iff_false in Hd0. rewrite le_Fin in Hd0.
      assert (0 < y)%Q as Hy by lra.
      assert (js_gt (PNum (Fin y)) (PNum (Fin 0)) = true) as ->
        by (apply lt_Fin; exact Hy).
      split; [lra|]. exists y. split; [reflexivity|lra].
Qed.

(** C1, as the code has it.  The session stores the episode count and the
    duration it is given without validating them (a falsy count is stored
    as 0, a falsy duration as 24); validation happens when it recomputes.
    After every sequence of calls on a session constructed from any initial
    options: if the session holds a result, then the stored options pass
    the validation, the result is the one the calculation function gives
    for them, the stored episode count is a finite number above 0 and at
    most 10000, a stored duration that is a number (and not NaN) is above 0
    and at most 1440, and so is the duration the result was computed
    with. *)
Theorem result_means_valid_options (initialOptions : value)
    (calls : list call) (r : TimeCalculationResult) :
  currentResult (run calls (createTimeCalculator initialOptions)) = Some r ->
  isValid
    (validateCalculationInput
       (VObject (currentOptions (run calls (createTimeCalculator initialOptions)))))
    = true
  /\ calculateWatchTime
       (VObject (currentOptions (run calls (createTimeCalculator initialOptions))))
     = Normal r
  /\ (exists x,
        get (currentOptions (run calls (createTimeCalculator initialOptions)))
          "episodes" = PNum (Fin x)
        /\ (0 < x <= 10000)%Q)
  /\ match
       get (currentOptions (run calls (createTimeCalculator initialOptions)))
         "episodeDuration"
     with
     | PNum (Fin y) => (0 < y <= 1440)%Q
     | PNum NaN | PUndefined | PNull => True
     | _ => False
     end
  /\ (exists y,
        bd_episodeDuration (breakdown r) = PNum (Fin y)
        /\ (0 < y <= 1440)%Q).
Proof.
  intros Hr.
  assert (result_is_current (run calls (createTimeCalculator initialOptions)))
    as Hinv.
  { apply run_result_is_current. intros r'. discriminate. }
  destruct (Hinv r Hr) as [Hpos Hcalc].
  split.
  { destruct (isValid _) eqn:Hv; [reflexivity|].
    unfold calculateWatchTime in Hcalc. now rewrite Hv in Hcalc. }
  split; [exact Hcalc|].
  now apply calculateWatchTime_bounds.
Qed.

Lemma result_means_valid_options_witness :
  exists r,
    currentResult
      (run [UpdateAnime (anime 12 24)] (createTimeCalculator PUndefined))
      = Some r
    /\ calculateWatchTime
         (VObject
            (currentOptions
               (run [UpdateAnime (anime 12 24)]
                  (createTimeCalculator PUndefined))))
       = Normal r.
Proof.
  eexists. split; [reflexivity|].
  apply (result_means_valid_options PUndefined [UpdateAnime (anime 12 24)]).
  reflexivity.
Defined.

(** C1, as the specification states it, fails: after
    [updateAnime({episodes: -5, duration: -3})] on a fresh session the
    stored episode count is -5 and the stored duration is -3; these options
    are not what the specification lets a session hold, they do not pass
    the validation, and they are not the baseline. *)
Lemma stores_unvalidated_options :
  let s :=
    run [UpdateAnime (anime (-5) (-3))] (createTimeCalculator PUndefined) in
  get (currentOptions s) "episodes" = PNum (Fin (-5))
  /\ get (currentOptions s) "episodeDuration" = PNum (Fin (-3))
  /\ ~ specified_options (currentOptions s)
  /\ ~ good_or_baseline (currentOptions s).
Proof.
  cbv zeta.
  set (s := run _ _).
  assert (get (currentOptions s) "episodes" = PNum (Fin (-5))) as He
    by reflexivity.
  assert (get (currentOptions s) "episodeDuration" = PNum (Fin (-3))) as Hd
    by reflexivity.
  split; [exact He|]. split; [exact Hd|]. split.
  - intros [(x & Hx & Hpos) _]. rewrite He in Hx. injection Hx as <-.
    now apply Hpos.
  - intros [Hvalid|[Hzero _]].
    + vm_compute in Hvalid. discriminate.
    + rewrite He in Hzero. discriminate.
Qed.

(** ** The tests of the repository, replayed *)

Example formatTime_minutes :
  formatTime (PNum (Fin 0)) = "0 minutes"
  /\ formatTime (PNum (Fin 1)) = "1 minute"
  /\ formatTime (PNum (Fin 59)) = "59 minutes".
Proof. repeat split; vm_compute; reflexivity. Qed.

Example formatTime_hours :
  formatTime (PNum (Fin 60)) = "1 hour"
  /\ formatTime (PNum (Fin 61)) = "1 hour 1 minute"
  /\ formatTime (PNum (Fin 150)) = "2 hours 30 minutes"
  /\ formatTime (PNum (Fin 3600)) = "60 hours".
Proof. repeat split; vm_compute; reflexivity. Qed.

Example formatTime_fractions :
  formatTime (PNum (Fin 59.4)) = "59 minutes"
  /\ formatTime (PNum (Fin 59.6)) = "1 hour"
  /\ formatTime (PNum (Fin 90.3)) = "1 hour 30 minutes".
Proof. repeat split; vm_compute; reflexivity. Qed.

Example formatTime_edge_cases :
  formatTime (PNum (Fin (-1))) = "0 minutes"
  /\ formatTime PNull = "0 minutes"
  /\ formatTime PUndefined = "0 minutes"
  /\ formatTime (PStr "invalid" NaN) = "0 minutes".
Proof. repeat split. Qed.

Example calculateWatchTime_both_themes :
  exists r,
    calculateWatchTime (options_of (PNum (Fin 12)) (PNum (Fin 24)) true true)
      = Normal r
    /\ Num.strict_eq (totalMinutes r) (Fin 324) = true
    /\ formattedTime r = "5 hours 24 minutes".
Proof. eexists. split; [reflexivity|]. split; vm_compute; reflexivity. Qed.

Example calculateWatchTime_invalid_input :
  calculateWatchTime PNull = Throw "Invalid calculation options provided"
  /\ calculateWatchTime (VObject ∅)
     = Throw "Episodes must be a non-negative number"
  /\ calculateWatchTime (VObject {["episodes" := PNum (Fin 0)]})
     = Throw "Cannot calculate time for anime with 0 episodes"
  /\ calculateWatchTime (options_of (PNum (Fin 10001)) (PNum (Fin 24)) false false)
     = Throw "Episode count exceeds reasonable limit (10,000 episodes)".
Proof. repeat split. Qed.

Example canCalculateTime_cases :
  canCalculateTime PNull = false
  /\ canCalculateTime (VObject ∅) = false
  /\ canCalculateTime (VObject {["episodes" := PStr "invalid" NaN]}) = false
  /\ canCalculateTime (VObject {["episodes" := PNum (Fin 12)]}) = true.
Proof. repeat split. Qed.

(** A listener that throws does not keep the next one from being called. *)
Example faulty_listener_is_isolated :
  notified_times
    (history
       (run [AddChangeListener (VFunction (faulty 0));
             AddChangeListener (VFunction (quiet 1));
             UpdateAnime (anime 12 24)]
          (createTimeCalculator PUndefined)))
  = [None; None; Some "4 hours 48 minutes"; Some "4 hours 48 minutes"].
Proof. vm_compute. reflexivity. Qed.

(** * Further properties of the code *)

(** ** formatTime in closed form *)

Lemma append_empty_r (s : string) : s +:+ "" = s.
Proof.
  induction s as [|c s IH]; [reflexivity|].
  change (String c (s +:+ "") = String c s). now rewrite IH.
Qed.

Lemma append_assoc (s t u : string) : (s +:+ t) +:+ u = s +:+ (t +:+ u).
Proof.
  induction s as [|c s IH]; [reflexivity|].
  change (String c ((s +:+ t) +:+ u) = String c (s +:+ (t +:+ u))).
  now rewrite IH.
Qed.

Lemma append_not_empty (s t : string) : t <> "" -> s +:+ t <> "".
Proof. destruct s; [intros Ht; exact Ht|discriminate]. Qed.

(** A whole number from 0 and below 2^53 is printed by its digits. *)
Lemma to_string_integer (x : Q) (k : Z) :
  (x == inject_Z k)%Q -> (0 <= k < 2 ^ 53)%Z ->
  Num.to_string (Fin x) = pretty k.
Proof.
  intros Hx [Hk Hlt]. unfold Num.to_string.
  assert (0 <= x)%Q as Hpos by (rewrite Hx; now rewrite <- (Zle_Qle 0)).
  assert (Qabs x == inject_Z k)%Q as Habs by (now rewrite Qabs_pos).
  assert (Qfloor (Qabs x) = k) as -> by (now rewrite Habs, Qfloor_Z).
  rewrite (Qeq_eq_bool _ _ Habs).
  assert ((k <? 2 ^ 53)%Z = true) as -> by (now apply Z.ltb_lt).
  cbn [andb].
  destruct (Qcompare_spec x 0) as [_|Hneg|_]; [reflexivity|lra|reflexivity].
Qed.

(** The remainder of the division by 60, as the code computes it on a
    whole number of minutes. *)
Lemma rem_60 (z : Z) :
  (0 <= z)%Z ->
  exists x, Num.rem (Fin (inject_Z z)) (Fin 60) = Fin x
            /\ (x == inject_Z (z mod 60))%Q.
Proof.
  intros Hz. cbn [Num.rem].
  assert (Qeq_bool 60 0 = false) as -> by reflexivity.
  eexists. split; [reflexivity|].
  assert (Num.Qtrunc (inject_Z z / 60) = (z / 60)%Z) as ->.
  { unfold Num.Qtrunc.
    assert (0 <= inject_Z z / 60)%Q as Hq.
    { apply Qle_shift_div_l; [reflexivity|].
      rewrite Qmult_0_l. now rewrite <- (Zle_Qle 0). }
    destruct (Qcompare_spec (inject_Z z / 60) 0) as [_|Hlt|_];
      [|lra|]; symmetry; apply (Zdiv_Qdiv z 60). }
  rewrite (Z.mod_eq z 60) by discriminate.
  unfold Z.sub. rewrite inject_Z_plus, inject_Z_opp, inject_Z_mult.
  change (inject_Z 60) with 60%Q. lra.
Qed.

(** The code's way of putting a count and its unit into words. *)
Lemma phrase_eq (x : Q) (k : Z) (unit one many : string) :
  (x == inject_Z k)%Q -> (0 <= k < 2 ^ 53)%Z ->
  one = "1 " +:+ unit -> many = " " +:+ unit +:+ "s" ->
  (if Num.strict_eq (Fin x) (Fin 1) then one
   else Num.to_string (Fin x) +:+ many)
  = phrase k unit.
Proof.
  intros Hx Hk -> ->. unfold phrase.
  rewrite (to_string_integer x k Hx Hk).
  destruct (k =? 1)%Z eqn:Hone.
  - apply Z.eqb_eq in Hone. subst k.
    assert (Num.strict_eq (Fin x) (Fin 1) = true) as ->; [|reflexivity].
    apply strict_eq_Fin. exact Hx.
  - apply Z.eqb_neq in Hone.
    assert (Num.strict_eq (Fin x) (Fin 1) = false) as ->; [|reflexivity].
    apply not_true_iff_false. rewrite strict_eq_Fin, Hx.
    change 1%Q with (inject_Z 1). rewrite inject_Z_injective. exact Hone.
Qed.

Lemma phrase_not_empty (k : Z) (unit : string) : phrase k unit <> "".
Proof.
  unfold phrase. destruct (k =? 1)%Z; [discriminate|].
  apply append_not_empty. discriminate.
Qed.

(** [formatTime] on a whole number of minutes below 2^53. *)
Lemma formatTime_integer (z : Z) :
  (0 <= z < 2 ^ 53)%Z ->
  formatTime (PNum (Fin (inject_Z z))) = hours_and_minutes z.
Proof.
  intros [Hz Hlt]. unfold formatTime, hours_and_minutes. cbn [as_number].
  assert (Num.lt (Fin (inject_Z z)) (Fin 0) = false) as ->
    by (apply lt_Fin_false; now apply (inject_Z_le 0 z)).
  assert (Num.round (Fin (inject_Z z)) = Fin (inject_Z z)) as ->
    by (cbn [Num.round]; now rewrite Qfloor_half).
  cbv zeta. destruct (z <? 60)%Z eqn:Hsixty.
  - apply Z.ltb_lt in Hsixty.
    assert (Num.lt (Fin (inject_Z z)) (Fin 60) = true) as ->
      by (apply lt_Fin; now apply (inject_Z_lt z 60)).
    apply phrase_eq; (reflexivity || now split).
  - apply Z.ltb_ge in Hsixty.
    assert (Num.lt (Fin (inject_Z z)) (Fin 60) = false) as ->
      by (apply lt_Fin_false; now apply (inject_Z_le 60 z)).
    rewrite floor_div_60 by (now split).
    destruct (rem_60 z Hz) as (m & -> & Hm).
    assert (1 <= z / 60)%Z as Hh
      by (apply Z.div_le_lower_bound; lia).
    assert (z / 60 < 2 ^ 53)%Z as Hhlt
      by (apply Z.div_lt_upper_bound; lia).
    pose proof (Z.mod_pos_bound z 60 eq_refl) as Hmod.
    assert (Num.gt (Fin (inject_Z (z / 60))) (Fin 0) = true) as ->
      by (apply lt_Fin; apply (inject_Z_lt 0 (z / 60)); lia).
    rewrite (phrase_eq (inject_Z (z / 60)) (z / 60) "hour");
      [|reflexivity|lia|reflexivity|reflexivity].
    rewrite (phrase_eq m (z mod 60) "minute");
      [|exact Hm|lia|reflexivity|reflexivity].
    change ("" +:+ ?t) with t.
    rewrite (bool_decide_eq_false_2 _ (phrase_not_empty (z / 60) "hour")).
    cbn [negb].
    destruct (z mod 60 =? 0)%Z eqn:Hzero.
    + apply Z.eqb_eq in Hzero.
      assert (Num.gt (Fin m) (Fin 0) = false) as ->.
      { apply lt_Fin_false. rewrite Hm, Hzero. apply Qle_refl. }
      rewrite (bool_decide_eq_false_2 _ (phrase_not_empty (z / 60) "hour")).
      cbn [negb]. now rewrite append_empty_r.
    + apply Z.eqb_neq in Hzero.
      assert (Num.gt (Fin m) (Fin 0) = true) as ->.
      { apply lt_Fin. rewrite Hm. apply (inject_Z_lt 0 (z mod 60)). lia. }
      rewrite append_assoc.
      rewrite bool_decide_eq_false_2; [reflexivity|].
      apply append_not_empty, append_not_empty, phrase_not_empty.
Qed.

(** [formatTime] on a number from 0 to 2^53 - 1. *)
Lemma formatTime_closed_form (x : Q) :
  (0 <= x <= 9007199254740991)%Q ->
  formatTime (PNum (Fin x)) = hours_and_minutes (Qfloor (x + 0.5)).
Proof.
  intros [Hx Hmax].
  rewrite <- (formatTime_above (Fin x)) by (apply lt_Fin_false; exact Hx).
  cbn [Num.round]. apply formatTime_integer.
  split; [now apply round_nonnegative|].
  change (2 ^ 53)%Z with (Z.succ 9007199254740991). apply Z.lt_succ_r.
  rewrite <- (Qfloor_half 9007199254740991). apply Qfloor_resp_le.
  change (inject_Z 9007199254740991) with 9007199254740991%Q. lra.
Qed.

(** X1.  For every number from 0 to 2^53 - 1, [formatTime] prints the
    number rounded to whole minutes (a half going up): the minutes alone
    below 60, and from 60 on the hours followed by the minutes left over,
    which are left out when there are none.  (Beyond 2^53 the binary64
    quotient by 60 and the printing of the hours no longer follow the
    whole-number division: at [60 * 2^50 + 56] minutes the hours printed
    are [2^50 + 1].) *)
Theorem formatTime_hours_and_minutes (x : Q) :
  (0 <= x <= 9007199254740991)%Q ->
  formatTime (PNum (Fin x)) = hours_and_minutes (Qfloor (x + 0.5))
  /\ formatTime (PNum (Fin (inject_Z (60 * 2 ^ 50 + 56))))
     = pretty (2 ^ 50 + 1)%Z +:+ " hours 56 minutes".
Proof.
  intros Hx. split; [now apply formatTime_closed_form|].
  vm_compute. reflexivity.
Qed.

Lemma formatTime_hours_and_minutes_witness :
  formatTime (PNum (Fin 90.7)) = hours_and_minutes 91.
Proof.
  apply (formatTime_hours_and_minutes 90.7). split; discriminate.
Defined.

(** ** calculateWatchTime: default duration and size of the result *)

(** The fields of a successful calculation, read off the result. *)
Lemma calculateWatchTime_fields (v : value) (r : TimeCalculationResult) :
  calculateWatchTime v = Normal r ->
  baseMinutes r
    = js_mul (property v "episodes") (bd_episodeDuration (breakdown r))
  /\ openingMinutes r
     = (if truthy (property v "includeOpening")
        then js_mul (property v "episodes") (PNum (Fin 1.5)) else Fin 0)
  /\ endingMinutes r
     = (if truthy (property v "includeEnding")
        then js_mul (property v "episodes") (PNum (Fin 1.5)) else Fin 0)
  /\ totalMinutes r
     = Num.add (Num.add (baseMinutes r) (openingMinutes r)) (endingMinutes r)
  /\ formattedTime r = formatTime (PNum (totalMinutes r))
  /\ baseTime (breakdown r) = formatTime (PNum (baseMinutes r)).
Proof.
  unfold calculateWatchTime.
  destruct (isValid (validateCalculationInput v)); [|discriminate].
  cbn [negb]. intros [= <-].
  cbn [baseMinutes openingMinutes endingMinutes totalMinutes formattedTime
       breakdown bd_episodeDuration baseTime].
  rewrite !truthy_with_default. repeat split.
Qed.

(** The numbers of a successful calculation on an episode count above 0:
    the count [x] and the duration [y] it was computed with are within the
    limits, and the minutes are finite: the base time from 0 to
    14,400,000, the total from 0 to 14,430,000. *)
Lemma calculateWatchTime_totals (o : object) (r : TimeCalculationResult) :
  js_gt (get o "episodes") (PNum (Fin 0)) = true ->
  calculateWatchTime (VObject o) = Normal r ->
  exists x y b t,
    (0 < x <= 10000)%Q /\ (0 < y <= 1440)%Q
    /\ get o "episodes" = PNum (Fin x)
    /\ bd_episodeDuration (breakdown r) = PNum (Fin y)
    /\ baseMinutes r = Num.binary64 (x * y)
    /\ baseMinutes r = Fin b /\ totalMinutes r = Fin t
    /\ (0 <= b <= 14400000)%Q /\ (0 <= t <= 14430000)%Q.
Proof.
  intros Hpos Hcalc.
  destruct (calculateWatchTime_bounds o r Hpos Hcalc)
    as ((x & He & Hx) & _ & (y & Hd & Hy)).
  destruct (calculateWatchTime_fields _ _ Hcalc)
    as (Hbase & Hopening & Hending & Htotal & _).
  cbn [property] in Hbase, Hopening, Hending.
  rewrite He, Hd in Hbase. rewrite He in Hopening, Hending.
  unfold js_mul in Hbase, Hopening, Hending.
  cbn [ToNumber Num.mul] in Hbase, Hopening, Hending.
  destruct (binary64_between (x * y) 0 14400000) as (b & Hb & Hbb);
    [lia|reflexivity| |].
  { change (inject_Z 0) with 0%Q.
    change (inject_Z 14400000) with 14400000%Q. nra. }
  destruct (theme_minutes_between (truthy (get o "includeOpening")) x)
    as (p & Hp & Hpb); [lra|].
  destruct (theme_minutes_between (truthy (get o "includeEnding")) x)
    as (n & Hn & Hnb); [lra|].
  rewrite Hp in Hopening. rewrite Hn in Hending.
  destruct (add_between b p 14400000 15000) as (s & Hs & Hsb);
    [exact Hbb|exact Hpb|reflexivity|].
  destruct (add_between s n 14415000 15000) as (t & Ht & Htb);
    [exact Hsb|exact Hnb|reflexivity|].
  exists x, y, b, t.
  split; [exact Hx|]. split; [exact Hy|]. split; [exact He|].
  split; [exact Hd|]. split; [exact Hbase|].
  split; [now rewrite Hbase|].
  split; [now rewrite Htotal, Hbase, Hb, Hopening, Hs, Hending|].
  split; [exact Hbb|exact Htb].
Qed.

(** X2.  When the episode count is a number above 0 and at most 10000 and
    the duration is missing, null or NaN, the calculation succeeds with
    the default duration of 24 minutes: the base time is the binary64
    product of the episode count by 24, which for a whole episode count is
    24 times the count exactly. *)
Theorem calculateWatchTime_default_duration (o : object) (x : Q) :
  get o "episodes" = PNum (Fin x) ->
  (0 < x <= 10000)%Q ->
  get o "episodeDuration" = PUndefined
  \/ get o "episodeDuration" = PNull
  \/ get o "episodeDuration" = PNum NaN ->
  exists r,
    calculateWatchTime (VObject o) = Normal r
    /\ bd_episodeDuration (breakdown r) = PNum (Fin 24)
    /\ baseMinutes r = Num.binary64 (x * 24)
    /\ (whole x = true ->
        exists b, baseMinutes r = Fin b /\ (b == x * 24)%Q).
Proof.
  intros He Hx Hd.
  assert (validateCalculationInput (VObject o)
          = {| isValid := true; error := None |}) as Hvalid.
  { rewrite validateCalculationInput_first_failing.
    unfold first_failing, coded_condition, condition, checks.
    cbn [property List.find]. rewrite He.
    assert (Num.lt (Fin x) (Fin 0) = false) as ->
      by (apply lt_Fin_false; lra).
    assert (Num.strict_eq (Fin x) (Fin 0) = false) as ->.
    { apply not_true_iff_false. rewrite strict_eq_Fin. lra. }
    assert (Num.gt (Fin x) (Fin 10000) = false) as ->
      by (apply lt_Fin_false; lra).
    destruct Hd as [->|[->| ->]]; reflexivity. }
  destruct (calculateWatchTime_valid (VObject o)) as [r Hr];
    [now rewrite Hvalid|].
  exists r. split; [exact Hr|].
  destruct (calculateWatchTime_normal _ _ Hr) as [_ Hduration].
  destruct (calculateWatchTime_fields _ _ Hr) as (Hbase & _).
  assert (bd_episodeDuration (breakdown r) = PNum (Fin 24)) as H24.
  { rewrite Hduration. cbn [property].
    destruct Hd as [->|[->| ->]]; reflexivity. }
  split; [exact H24|].
  assert (baseMinutes r = Num.binary64 (x * 24)) as Hproduct.
  { rewrite Hbase, H24. cbn [property]. now rewrite He. }
  split; [exact Hproduct|].
  intros Hwx. apply whole_eq in Hwx.
  exists (Qred (x * 24)). split; [|apply Qred_correct].
  rewrite Hproduct.
  apply (mul_exact x 24 (Qfloor x) 48); [lra|discriminate| |exact Hwx|reflexivity].
  apply Qle_lt_trans with 240000%Q; [lra|reflexivity].
Qed.

Lemma calculateWatchTime_default_duration_witness :
  exists r b,
    calculateWatchTime (VObject {["episodes" := PNum (Fin 12)]}) = Normal r
    /\ bd_episodeDuration (breakdown r) = PNum (Fin 24)
    /\ baseMinutes r = Fin b /\ (b == 288)%Q.
Proof.
  destruct (calculateWatchTime_default_duration
              {["episodes" := PNum (Fin 12)]} 12)
    as (r & Hr & H24 & _ & Hwhole);
    [reflexivity|split; [reflexivity|discriminate]|left; reflexivity|].
  destruct Hwhole as (b & Hb & Heq); [reflexivity|].
  exists r, b. split; [exact Hr|]. split; [exact H24|].
  split; [exact Hb|]. rewrite Heq. reflexivity.
Defined.

(** X3.  A successful calculation on an episode count above 0 has finite
    minutes: the base time is from 0 to 14,400,000 (a product of two tiny
    factors underflows to 0), the total is from 0 to 14,430,000, and the
    formatted time and the formatted base time are these minutes, rounded,
    in hours and minutes. *)
Theorem calculateWatchTime_finite (o : object) (r : TimeCalculationResult) :
  js_gt (get o "episodes") (PNum (Fin 0)) = true ->
  calculateWatchTime (VObject o) = Normal r ->
  exists b t,
    baseMinutes r = Fin b /\ totalMinutes r = Fin t
    /\ (0 <= b <= 14400000)%Q /\ (0 <= t <= 14430000)%Q
    /\ formattedTime r = hours_and_minutes (Qfloor (t + 0.5))
    /\ baseTime (breakdown r) = hours_and_minutes (Qfloor (b + 0.5)).
Proof.
  intros Hpos Hcalc.
  destruct (calculateWatchTime_totals o r Hpos Hcalc)
    as (x & y & b & t & _ & _ & _ & _ & _ & Hbase & Htotal & Hb & Ht).
  destruct (calculateWatchTime_fields _ _ Hcalc)
    as (_ & _ & _ & _ & Hformatted & HbaseTime).
  exists b, t. split; [exact Hbase|]. split; [exact Htotal|].
  split; [exact Hb|]. split; [exact Ht|].
  rewrite Hformatted, HbaseTime, Htotal, Hbase.
  split; apply formatTime_closed_form; lra.
Qed.

Lemma calculateWatchTime_finite_witness :
  exists r b t,
    calculateWatchTime
      (VObject (<["episodes" := PNum (Fin 26)]>
                (<["includeOpening" := PBool true]> ∅)))
      = Normal r
    /\ baseMinutes r = Fin b /\ totalMinutes r = Fin t
    /\ (0 <= t <= 14430000)%Q
    /\ formattedTime r = hours_and_minutes (Qfloor (t + 0.5)).
Proof.
  destruct (calculateWatchTime_valid
              (VObject (<["episodes" := PNum (Fin 26)]>
                        (<["includeOpening" := PBool true]> ∅))))
    as [r Hr]; [reflexivity|].
  destruct (calculateWatchTime_finite
              (<["episodes" := PNum (Fin 26)]>
               (<["includeOpening" := PBool true]> ∅)) r)
    as (b & t & Hb & Ht & _ & Hbound & Hformatted & _);
    [reflexivity|exact Hr|].
  exists r, b, t. split; [exact Hr|]. split; [exact Hb|].
  split; [exact Ht|]. split; [exact Hbound|exact Hformatted].
Defined.

(** X4.  Whatever the initial options and the calls, a result that the
    session holds has a finite total from 0 to 14,430,000 minutes, and its
    formatted time is that total, rounded, in hours and minutes. *)
Theorem session_result_finite (initialOptions : value) (calls : list call)
    (r : TimeCalculationResult) :
  currentResult (run calls (createTimeCalculator initialOptions)) = Some r ->
  exists t,
    totalMinutes r = Fin t /\ (0 <= t <= 14430000)%Q
    /\ formattedTime r = hours_and_minutes (Qfloor (t + 0.5)).
Proof.
  intros Hr.
  assert (result_is_current (run calls (createTimeCalculator initialOptions)))
    as Hinv by (apply run_result_is_current; intros r'; discriminate).
  destruct (Hinv r Hr) as [Hpos Hcalc].
  destruct (calculateWatchTime_finite _ r Hpos Hcalc)
    as (b & t & _ & Ht & _ & Hbound & Hformatted & _).
  exists t. split; [exact Ht|]. split; [exact Hbound|exact Hformatted].
Qed.

Lemma session_result_finite_witness :
  exists r t,
    currentResult
      (run [UpdateAnime (anime 12 24); SetThemeInclusion (PBool true) (PBool true)]
         (createTimeCalculator PUndefined))
    = Some r
    /\ totalMinutes r = Fin t /\ (0 <= t <= 14430000)%Q.
Proof.
  eexists.
  edestruct (session_result_finite PUndefined
               [UpdateAnime (anime 12 24);
                SetThemeInclusion (PBool true) (PBool true)])
    as (t & Ht & Hbound & _); [reflexivity|].
  exists t. split; [reflexivity|]. split; [exact Ht|exact Hbound].
Defined.

(** ** The session: what every mutating operation does *)

Lemma calculations_recompute_events (o : object) :
  calculations (recompute_events o)
  = (if js_gt (get o "episodes") (PNum (Fin 0)) then [VObject o] else []).
Proof.
  unfold recompute_events.
  destruct (js_gt _ _); [|reflexivity].
  now destruct (calculateWatchTime _).
Qed.

(** X5.  Every mutating operation returns and calls every registered
    listener exactly once, in the order of registration and whether or not
    listeners throw, with the result and the options the operation leaves
    in the session; a message is passed only together with the "no result"
    value. *)
Theorem every_listener_is_notified (s : state) (c : call) :
  mutating c = true ->
  fst (perform c s) = Normal ()
  /\ exists new message,
       history (snd (perform c s)) = history s ++ new
       /\ notifications new
          = map (fun l =>
                   ENotify l (currentResult (snd (perform c s)))
                     (currentOptions (snd (perform c s))) message)
              (changeListeners s)
       /\ (message <> None -> currentResult (snd (perform c s)) = None).
Proof.
  intros Hc. split; [apply perform_returns|].
  destruct (recomputes c) eqn:Hr.
  - rewrite (perform_recomputes c s Hr). unfold recalculated, with_options.
    cbn [snd currentOptions currentResult changeListeners history].
    set (o := assigned c (currentOptions s)).
    eexists _, (snd (recomputed o)). split; [reflexivity|]. split.
    + now rewrite notifications_app, notifications_recompute_events,
        notifications_listener_events.
    + unfold recomputed. destruct (js_gt _ _); [|reflexivity].
      destruct (calculateWatchTime _); cbn [fst snd]; [|reflexivity].
      intros Hm. now destruct Hm.
  - destruct c; cbn [mutating recomputes] in Hc, Hr; try congruence.
    cbn [perform]. rewrite reset_eq.
    cbn [snd currentOptions currentResult changeListeners history].
    eexists _, None. split; [reflexivity|]. split; [|reflexivity].
    apply notifications_listener_events.
Qed.

Lemma every_listener_is_notified_witness :
  fst (perform (UpdateAnime (anime 12 24))
         (run [AddChangeListener (VFunction (faulty 0));
               AddChangeListener (VFunction (quiet 1))]
            (createTimeCalculator PUndefined)))
  = Normal ().
Proof.
  apply (every_listener_is_notified
           (run [AddChangeListener (VFunction (faulty 0));
                 AddChangeListener (VFunction (quiet 1))]
              (createTimeCalculator PUndefined))
           (UpdateAnime (anime 12 24))).
  reflexivity.
Defined.

(** X6.  After a mutating operation the current result depends on the
    options it leaves and on nothing else: it is the result of the
    calculation function on these options when their episode count is
    above 0 and the calculation succeeds, and the "no result" value
    otherwise; and the calculation function was entered once, with these
    options, when the count is above 0, and not at all otherwise. *)
Theorem result_follows_options (s : state) (c : call) :
  mutating c = true ->
  exists new,
    history (snd (perform c s)) = history s ++ new
    /\ currentResult (snd (perform c s))
       = (if js_gt (get (currentOptions (snd (perform c s))) "episodes")
               (PNum (Fin 0))
          then match calculateWatchTime
                       (VObject (currentOptions (snd (perform c s)))) with
               | Normal r => Some r
               | Throw _ => None
               end
          else None)
    /\ calculations new
       = (if js_gt (get (currentOptions (snd (perform c s))) "episodes")
               (PNum (Fin 0))
          then [VObject (currentOptions (snd (perform c s)))]
          else []).
Proof.
  intros Hc. destruct (recomputes c) eqn:Hr.
  - rewrite (perform_recomputes c s Hr). unfold recalculated, with_options.
    cbn [snd currentOptions currentResult changeListeners history].
    set (o := assigned c (currentOptions s)).
    eexists. split; [reflexivity|]. split.
    + unfold recomputed. destruct (js_gt _ _); [|reflexivity].
      now destruct (calculateWatchTime _).
    + now rewrite calculations_app, calculations_recompute_events,
        calculations_listener_events, app_nil_r.
  - destruct c; cbn [mutating recomputes] in Hc, Hr; try congruence.
    cbn [perform]. rewrite reset_eq.
    cbn [snd currentOptions currentResult changeListeners history].
    eexists. split; [reflexivity|]. split; [reflexivity|].
    apply calculations_listener_events.
Qed.

Lemma result_follows_options_witness :
  exists new,
    history
      (snd (perform (SetIncludeEnding (PBool true))
              (run [UpdateAnime (anime 12 24)]
                 (createTimeCalculator PUndefined))))
    = history (run [UpdateAnime (anime 12 24)]
                 (createTimeCalculator PUndefined)) ++ new
    /\ length (calculations new) = 1%nat.
Proof.
  destruct (result_follows_options
              (run [UpdateAnime (anime 12 24)]
                 (createTimeCalculator PUndefined))
              (SetIncludeEnding (PBool true)))
    as (new & Hnew & _ & Hcalc); [reflexivity|].
  exists new. split; [exact Hnew|]. now rewrite Hcalc.
Defined.

(** X7.  A manual recomputation right after a recomputation changes
    neither options nor result nor listeners, and calls the listeners with
    the same arguments as the first. *)
Theorem recalculate_twice (s : state) :
  let once := snd (recalculate s) in
  let twice := snd (recalculate once) in
  currentOptions twice = currentOptions once
  /\ currentResult twice = currentResult once
  /\ changeListeners twice = changeListeners once
  /\ exists first second,
       history once = history s ++ first
       /\ history twice = history once ++ second
       /\ notifications second = notifications first
       /\ calculations second = calculations first.
Proof.
  cbv zeta. rewrite !recalculate_eq. cbn [snd]. unfold recalculated.
  cbn [currentOptions currentResult changeListeners history].
  repeat split. eexists _, _. split; [reflexivity|]. split; [reflexivity|].
  split; reflexivity.
Qed.

(** X8.  [setThemeInclusion(a, b)] leaves the options, the result and the
    listeners that [setIncludeOpening(a)] followed by [setIncludeEnding(b)]
    leaves, and calls every listener once where the two calls in a row call
    it twice. *)
Theorem setThemeInclusion_once (s : state) (a b : value) :
  let both := snd (setThemeInclusion a b s) in
  let one_by_one := snd (setIncludeEnding b (snd (setIncludeOpening a s))) in
  currentOptions both = currentOptions one_by_one
  /\ currentResult both = currentResult one_by_one
  /\ changeListeners both = changeListeners one_by_one
  /\ exists new new',
       history both = history s ++ new
       /\ history one_by_one = history s ++ new'
       /\ length (notifications new) = length (changeListeners s)
       /\ length (notifications new')
          = (2 * length (changeListeners s))%nat.
Proof.
  cbv zeta.
  rewrite (perform_recomputes (SetThemeInclusion a b) s eq_refl
           : setThemeInclusion a b s = _).
  rewrite (perform_recomputes (SetIncludeOpening a) s eq_refl
           : setIncludeOpening a s = _).
  cbn [snd].
  rewrite (perform_recomputes (SetIncludeEnding b) _ eq_refl
           : setIncludeEnding b _ = _).
  cbn [snd]. unfold recalculated, with_options.
  cbn [currentOptions currentResult changeListeners history assigned].
  repeat split. eexists _, _. split; [reflexivity|]. split.
  - rewrite <- app_assoc. reflexivity.
  - rewrite !notifications_app, !notifications_recompute_events,
      !notifications_listener_events.
    cbn [app]. rewrite length_app, !length_map. split; lia.
Qed.

(** X9.  A reset, from any state, leaves the baseline options (episode
    count 0, duration 24, both flags false, and no other property) and no
    result, keeps the listeners, does not enter the calculation function,
    and calls every listener once with no result, the baseline and no
    message. *)
Theorem reset_restores_baseline (s : state) :
  fst (reset s) = Normal ()
  /\ currentOptions (snd (reset s)) = baseline
  /\ currentResult (snd (reset s)) = None
  /\ changeListeners (snd (reset s)) = changeListeners s
  /\ exists new,
       history (snd (reset s)) = history s ++ new
       /\ calculations new = []
       /\ notifications new
          = map (fun l => ENotify l None baseline None) (changeListeners s).
Proof.
  rewrite reset_eq. cbn [fst snd]. repeat split.
  eexists. split; [reflexivity|].
  now rewrite calculations_listener_events, notifications_listener_events.
Qed.

(** ** The list of listeners *)

Lemma indexOf_fresh (l : list callback) (f : callback) :
  cb_id f ∉ cb_id <$> l -> indexOf l (VFunction f) = None.
Proof.
  induction l as [|g l IH]; [reflexivity|].
  rewrite fmap_cons, not_elem_of_cons. intros [Hg Hl]. cbn [indexOf].
  rewrite bool_decide_eq_false_2 by congruence.
  now rewrite (IH Hl).
Qed.

Lemma indexOf_app_fresh (l : list callback) (f : callback) :
  cb_id f ∉ cb_id <$> l -> indexOf (l ++ [f]) (VFunction f) = Some (length l).
Proof.
  induction l as [|g l IH].
  - intros _. cbn. now rewrite bool_decide_eq_true_2.
  - rewrite fmap_cons, not_elem_of_cons. intros [Hg Hl].
    cbn [app indexOf length].
    rewrite bool_decide_eq_false_2 by congruence.
    now rewrite (IH Hl).
Qed.

(** What [indexOf] finds is the first position that holds a callback of
    the identity looked for. *)
Lemma indexOf_first (l : list callback) (f : callback) (i : nat) :
  indexOf l (VFunction f) = Some i ->
  (exists g, l !! i = Some g /\ cb_id g = cb_id f)
  /\ forall j g, (j < i)%nat -> l !! j = Some g -> cb_id g <> cb_id f.
Proof.
  revert i. induction l as [|h l IH]; intros i; [discriminate|].
  cbn [indexOf]. destruct (bool_decide (cb_id h = cb_id f)) eqn:Hh.
  - intros [= <-]. apply bool_decide_eq_true in Hh. split; [eauto|].
    intros j g Hj. lia.
  - apply bool_decide_eq_false in Hh.
    destruct (indexOf l (VFunction f)) as [k|]; [|discriminate].
    intros [= <-]. destruct (IH k eq_refl) as [Hfound Hbefore].
    split; [exact Hfound|].
    intros [|j] g Hj; cbn.
    + now intros [= <-].
    + apply Hbefore. lia.
Qed.

Lemma indexOf_registered (l : list callback) (f : callback) :
  cb_id f ∈ cb_id <$> l -> is_Some (indexOf l (VFunction f)).
Proof.
  induction l as [|g l IH]; [now rewrite fmap_nil, elem_of_nil|].
  rewrite fmap_cons, elem_of_cons. intros Hin. cbn [indexOf].
  destruct (bool_decide (cb_id g = cb_id f)) eqn:Hg; [eauto|].
  apply bool_decide_eq_false in Hg.
  destruct Hin as [Heq|Hin]; [congruence|].
  destruct (IH Hin) as [i ->]. eauto.
Qed.

(** X10.  For a callback that is not registered: removing it changes
    nothing at all, and registering it and then removing it gives back the
    list of listeners, the options and the result there were. *)
Theorem removeChangeListener_after_add (s : state) (f : callback) :
  cb_id f ∉ registered_ids s ->
  removeChangeListener (VFunction f) s = (Normal (), s)
  /\ changeListeners
       (snd (removeChangeListener (VFunction f)
               (snd (addChangeListener (VFunction f) s))))
     = changeListeners s
  /\ currentOptions
       (snd (removeChangeListener (VFunction f)
               (snd (addChangeListener (VFunction f) s))))
     = currentOptions s
  /\ currentResult
       (snd (removeChangeListener (VFunction f)
               (snd (addChangeListener (VFunction f) s))))
     = currentResult s.
Proof.
  unfold registered_ids. intros Hf. split.
  - unfold removeChangeListener. rewrite bind_eq. cbn [gets].
    now rewrite (indexOf_fresh _ _ Hf).
  - rewrite addChangeListener_eq. cbn [snd].
    unfold removeChangeListener. rewrite bind_eq.
    cbn [gets changeListeners].
    rewrite (indexOf_app_fresh _ _ Hf). cbn.
    rewrite (delete_middle (changeListeners s) [] f), app_nil_r.
    repeat split.
Qed.

Lemma removeChangeListener_after_add_witness :
  changeListeners
    (snd (removeChangeListener (VFunction (quiet 1))
            (snd (addChangeListener (VFunction (quiet 1))
                    (snd (addChangeListener (VFunction (quiet 0))
                            (createTimeCalculator PUndefined)))))))
  = [quiet 0].
Proof.
  apply (removeChangeListener_after_add
           (snd (addChangeListener (VFunction (quiet 0))
                   (createTimeCalculator PUndefined)))
           (quiet 1)).
  compute_done.
Defined.

(** X11.  Removing a registered callback takes out its first registration
    and nothing else: the list loses exactly the first listener of that
    identity (a callback registered twice stays registered once), options
    and result stay, and no listener is called. *)
Theorem removeChangeListener_first (s : state) (f : callback) :
  cb_id f ∈ registered_ids s ->
  exists i g,
    changeListeners s !! i = Some g /\ cb_id g = cb_id f
    /\ (forall j h, (j < i)%nat -> changeListeners s !! j = Some h ->
                    cb_id h <> cb_id f)
    /\ removeChangeListener (VFunction f) s
       = (Normal (),
          {| currentOptions := currentOptions s;
             currentResult := currentResult s;
             changeListeners := delete i (changeListeners s);
             history := history s |})
    /\ length (delete i (changeListeners s))
       = (length (changeListeners s) - 1)%nat.
Proof.
  unfold registered_ids. intros Hf.
  destruct (indexOf_registered _ _ Hf) as [i Hi].
  destruct (indexOf_first _ _ _ Hi) as [(g & Hg & Hid) Hbefore].
  exists i, g. split; [exact Hg|]. split; [exact Hid|].
  split; [exact Hbefore|]. split.
  - unfold removeChangeListener. rewrite bind_eq. cbn [gets].
    now rewrite Hi.
  - apply length_delete. eauto.
Qed.

Lemma removeChangeListener_first_witness :
  exists i,
    changeListeners
      (snd (removeChangeListener (VFunction (quiet 0))
              (run [AddChangeListener (VFunction (quiet 0));
                    AddChangeListener (VFunction (quiet 1));
                    AddChangeListener (VFunction (quiet 0))]
                 (createTimeCalculator PUndefined))))
    = delete i [quiet 0; quiet 1; quiet 0].
Proof.
  destruct (removeChangeListener_first
              (run [AddChangeListener (VFunction (quiet 0));
                    AddChangeListener (VFunction (quiet 1));
                    AddChangeListener (VFunction (quiet 0))]
                 (createTimeCalculator PUndefined))
              (quiet 0)) as (i & g & _ & _ & _ & Hremoved & _).
  - compute_done.
  - exists i. now rewrite Hremoved.
Defined.

Lemma notified_ids_app (a b : list event) :
  notified_ids (a ++ b) = notified_ids a ++ notified_ids b.
Proof. apply omap_app. Qed.

Lemma notified_ids_listener_events (listeners : list callback)
    (r : option TimeCalculationResult) (o : object) (m : option string) :
  notified_ids (listener_events listeners r o m) = cb_id <$> listeners.
Proof.
  induction listeners as [|l rest IH]; [reflexivity|].
  cbn [listener_events flat_map]. unfold listener_events in IH.
  rewrite fmap_cons, <- IH. destruct (cb_body l r o m); reflexivity.
Qed.

Lemma notified_ids_recompute_events (o : object) :
  notified_ids (recompute_events o) = [].
Proof.
  unfold recompute_events.
  destruct (js_gt _ _); [|reflexivity].
  now destruct (calculateWatchTime _).
Qed.

(** Whom a call calls and whom it leaves registered: listeners that were
    registered, and the callback the call registers. *)
Lemma perform_listeners (c : call) (s : state) :
  exists new,
    history (snd (perform c s)) = history s ++ new
    /\ (forall id, id ∈ notified_ids new ->
                   id ∈ registered_ids s \/ registers id c = true)
    /\ (forall id, id ∈ registered_ids (snd (perform c s)) ->
                   id ∈ registered_ids s \/ registers id c = true).
Proof.
  unfold registered_ids. destruct (recomputes c) eqn:Hr.
  - rewrite (perform_recomputes c s Hr). unfold recalculated, with_options.
    cbn [snd changeListeners history].
    eexists. split; [reflexivity|]. split; [|now left].
    intros id. rewrite notified_ids_app, notified_ids_recompute_events,
      notified_ids_listener_events. now left.
  - destruct c; try discriminate; cbn [perform].
    + unfold updateAnime. cbn [recomputes] in Hr. rewrite Hr.
      exists []. cbn. rewrite app_nil_r. split; [reflexivity|].
      split; [intros id Hid; now apply elem_of_nil in Hid|now left].
    + exists []. cbn. rewrite app_nil_r. split; [reflexivity|].
      split; [intros id Hid; now apply elem_of_nil in Hid|now left].
    + exists []. cbn. rewrite app_nil_r. split; [reflexivity|].
      split; [intros id Hid; now apply elem_of_nil in Hid|now left].
    + destruct listener as [p|o|f].
      * exists []. cbn. rewrite app_nil_r. split; [reflexivity|].
        split; [intros id Hid; now apply elem_of_nil in Hid|now left].
      * exists []. cbn. rewrite app_nil_r. split; [reflexivity|].
        split; [intros id Hid; now apply elem_of_nil in Hid|now left].
      * rewrite addChangeListener_eq. cbn [snd changeListeners history].
        eexists. split; [reflexivity|]. cbn [registers].
        split; intros id.
        -- rewrite notified_ids_listener_events.
           cbn. rewrite list_elem_of_singleton. intros ->. right.
           now apply bool_decide_eq_true_2.
        -- rewrite fmap_app, elem_of_app. cbn.
           rewrite list_elem_of_singleton. intros [Hid| ->]; [now left|].
           right. now apply bool_decide_eq_true_2.
    + unfold removeChangeListener. rewrite bind_eq. cbn [gets].
      destruct (indexOf _ _) as [i|]; cbn.
      * exists []. rewrite app_nil_r. split; [reflexivity|].
        split; [intros id Hid; now apply elem_of_nil in Hid|].
        intros id. rewrite list_fmap_delete. intros Hid. left.
        eapply list_elem_of_delete_inv, Hid.
      * exists []. rewrite app_nil_r. split; [reflexivity|].
        split; [intros id Hid; now apply elem_of_nil in Hid|now left].
    + rewrite reset_eq. cbn [snd changeListeners history].
      eexists. split; [reflexivity|]. split; [|now left].
      intros id. rewrite notified_ids_listener_events. now left.
Qed.

(** X12.  A callback that is not registered is never called: along any
    sequence of calls that does not register a callback of its identity,
    no listener of that identity is called, and none gets registered.  In
    particular a callback whose only registration was removed is not called
    again. *)
Theorem unregistered_is_never_called (calls : list call) (s : state)
    (id : nat) :
  id ∉ registered_ids s ->
  forallb (fun c => negb (registers id c)) calls = true ->
  (id ∉ registered_ids (run calls s))
  /\ exists new,
       history (run calls s) = history s ++ new
       /\ (id ∉ notified_ids new).
Proof.
  revert s. induction calls as [|c calls IH]; intros s Hs Hcalls.
  - split; [exact Hs|]. exists []. rewrite app_nil_r.
    split; [reflexivity|apply not_elem_of_nil].
  - cbn [forallb] in Hcalls. apply andb_true_iff in Hcalls as [Hc Hcalls].
    apply negb_true_iff in Hc.
    destruct (perform_listeners c s) as (new & Hnew & Hcalled & Hkept).
    assert (id ∉ registered_ids (snd (perform c s))) as Hs'.
    { intros Hin. destruct (Hkept id Hin) as [Hin'|Hreg]; [tauto|congruence]. }
    destruct (IH (snd (perform c s)) Hs' Hcalls) as (Hend & new' & Hnew' & Hnot).
    cbn [run foldl]. split; [exact Hend|].
    exists (new ++ new'). split.
    + unfold run in Hnew'. rewrite Hnew', Hnew. now rewrite app_assoc.
    + rewrite notified_ids_app, not_elem_of_app. split; [|exact Hnot].
      intros Hin. destruct (Hcalled id Hin) as [Hin'|Hreg]; [tauto|congruence].
Qed.

Lemma unregistered_is_never_called_witness :
  0%nat ∉ registered_ids
    (run [UpdateAnime (anime 12 24); AddChangeListener (VFunction (quiet 1));
          Reset]
       (snd (removeChangeListener (VFunction (quiet 0))
               (snd (addChangeListener (VFunction (quiet 0))
                       (createTimeCalculator PUndefined)))))).
Proof.
  apply (unregistered_is_never_called
           [UpdateAnime (anime 12 24); AddChangeListener (VFunction (quiet 1));
            Reset]
           (snd (removeChangeListener (VFunction (quiet 0))
                   (snd (addChangeListener (VFunction (quiet 0))
                           (createTimeCalculator PUndefined)))))
           0%nat).
  - compute_done.
  - reflexivity.
Defined.

(** X13.  Apart from a reset, a call changes the properties of the options
    that it writes and no other: an update of the anime data keeps both
    flags and every other property, a change of a flag keeps the episode
    count, the duration and the other flag, and the calls that write
    nothing keep all. *)
Theorem unwritten_options_stay (s : state) (c : call) (key : string) :
  c <> Reset ->
  key ∉ written c ->
  currentOptions (snd (perform c s)) !! key = currentOptions s !! key.
Proof.
  intros Hreset Hkey. destruct (recomputes c) eqn:Hr.
  - rewrite (perform_recomputes c s Hr). unfold recalculated, with_options.
    cbn [snd currentOptions].
    destruct c; try discriminate; cbn [assigned written] in *.
    + apply not_elem_of_cons in Hkey as [H1 Hkey].
      apply not_elem_of_cons in Hkey as [H2 _].
      now rewrite !lookup_insert_ne by congruence.
    + apply not_elem_of_cons in Hkey as [H1 _].
      now rewrite lookup_insert_ne by congruence.
    + apply not_elem_of_cons in Hkey as [H1 _].
      now rewrite lookup_insert_ne by congruence.
    + apply not_elem_of_cons in Hkey as [H1 Hkey].
      apply not_elem_of_cons in Hkey as [H2 _].
      now rewrite !lookup_insert_ne by congruence.
    + reflexivity.
  - destruct (perform_other c s Hr) as ([Hnone|[_ ->]] & _); [|reflexivity].
    destruct c; try discriminate; try congruence; cbn [perform].
    + unfold updateAnime. cbn [recomputes] in Hr. now rewrite Hr.
    + reflexivity.
    + reflexivity.
    + destruct listener as [p|o|f]; [reflexivity|reflexivity|].
      now rewrite addChangeListener_eq.
    + unfold removeChangeListener. rewrite bind_eq. cbn [gets].
      now destruct (indexOf _ _).
Qed.

Lemma unwritten_options_stay_witness :
  currentOptions
    (snd (perform (UpdateAnime (anime 12 24))
            (snd (perform (SetIncludeOpening (PBool true))
                    (createTimeCalculator PUndefined)))))
    !! "includeOpening"
  = Some (PBool true).
Proof.
  rewrite (unwritten_options_stay
             (snd (perform (SetIncludeOpening (PBool true))
                     (createTimeCalculator PUndefined)))
             (UpdateAnime (anime 12 24)) "includeOpening").
  - reflexivity.
  - discriminate.
  - compute_done.
Defined.

(** ** When an update of the anime data gives a result *)

(** For a number that can be compared, [<=] is the negation of [>]. *)
Lemma le_not_gt (n : number) (y : Q) :
  n <> NaN -> Num.le n (Fin y) = negb (Num.gt n (Fin y)).
Proof. now destruct n. Qed.

(** A number above 0 is truthy, is not below 0 and is not 0. *)
Lemma above_zero (n : number) :
  Num.gt n (Fin 0) = true ->
  n <> NaN /\ truthy (PNum n) = true
  /\ Num.lt n (Fin 0) = false /\ Num.strict_eq n (Fin 0) = false
  /\ Num.le n (Fin 0) = false.
Proof.
  destruct n as [| | |x]; try discriminate.
  - intros _. repeat split. discriminate.
  - intros Hx. apply lt_Fin in Hx. split; [discriminate|].
    split; [|split; [|split]].
    + cbn [truthy]. apply negb_true_iff, not_true_iff_false.
      rewrite Qeq_bool_iff. lra.
    + apply lt_Fin_false. lra.
    + apply not_true_iff_false. rewrite strict_eq_Fin. lra.
    + apply not_true_iff_false. rewrite le_Fin. lra.
Qed.

(** A truthy number is not NaN. *)
Lemma truthy_number (n : number) : truthy (PNum n) = true -> n <> NaN.
Proof. now destruct n. Qed.

(** When the options pass the validation behind the guard of the
    session. *)
Lemma first_failing_none (o : object) :
  js_gt (get o "episodes") (PNum (Fin 0)) = true ->
  first_failing coded_condition (VObject o) = None
  <-> (exists n, get o "episodes" = PNum n
                 /\ Num.gt n (Fin 10000) = false)
      /\ match get o "episodeDuration" with
         | PUndefined | PNull => True
         | PNum m => Num.le m (Fin 0) = false /\ Num.gt m (Fin 1440) = false
         | _ => False
         end.
Proof.
  intros Hpos.
  unfold first_failing, coded_condition, condition, checks.
  cbn [property List.find].
  destruct (get o "episodes") as [| |b|n|s n].
  1,2,3,5: split; [discriminate|intros [(n' & Hn & _) _]; discriminate].
  unfold js_gt in Hpos. cbn [ToNumber] in Hpos.
  destruct (above_zero n Hpos) as (_ & _ & -> & -> & _).
  destruct (get o "episodeDuration") as [| |b|m|s m];
    cbn [present not_a_number_or_at_most_0 andb].
  - destruct (Num.gt n (Fin 10000)) eqn:Hmax.
    + split; [discriminate|intros [(n' & [= <-] & ?) _]; congruence].
    + split; [intros _; split; [eauto|exact I]|reflexivity].
  - destruct (Num.gt n (Fin 10000)) eqn:Hmax.
    + split; [discriminate|intros [(n' & [= <-] & ?) _]; congruence].
    + split; [intros _; split; [eauto|exact I]|reflexivity].
  - split; [discriminate|tauto].
  - destruct (Num.le m (Fin 0)).
    { split; [discriminate|intros [_ [? _]]; discriminate]. }
    destruct (Num.gt n (Fin 10000)) eqn:Hmax.
    { split; [discriminate|intros [(n' & [= <-] & ?) _]; congruence]. }
    destruct (Num.gt m (Fin 1440)).
    { split; [discriminate|intros [_ [_ ?]]; discriminate]. }
    split; [|reflexivity]. intros _. split; [eauto|split; reflexivity].
  - split; [discriminate|tauto].
Qed.

(** X14.  An update of the anime data leaves a result exactly when the
    data can be calculated with ([canCalculateTime]), its episode count is
    at most 10000, and its duration is falsy (the default is then stored)
    or a number above 0 and at most 1440; the state before the update and
    the flags play no part. *)
Theorem updateAnime_result_iff (s : state) (animeData : object) :
  is_Some (currentResult (snd (updateAnime (VObject animeData) s)))
  <-> canCalculateTime (VObject animeData) = true
      /\ js_le (get animeData "episodes") (PNum (Fin 10000)) = true
      /\ usable_duration (get animeData "duration") = true.
Proof.
  rewrite (perform_recomputes (UpdateAnime (VObject animeData)) s eq_refl
           : updateAnime (VObject animeData) s = _).
  unfold recalculated, with_options. cbn [snd currentResult currentOptions].
  set (o := assigned _ _).
  assert (get o "episodes" = js_or (get animeData "episodes") (PNum (Fin 0)))
    as He.
  { unfold o, get. cbn [assigned property].
    now rewrite lookup_insert_ne, lookup_insert_eq. }
  assert (get o "episodeDuration"
          = js_or (get animeData "duration") (PNum DEFAULT_EPISODE_DURATION))
    as Hd.
  { unfold o, get. cbn [assigned property]. now rewrite lookup_insert_eq. }
  assert (is_Some (fst (recomputed o))
          <-> js_gt (get o "episodes") (PNum (Fin 0)) = true
              /\ first_failing coded_condition (VObject o) = None) as ->.
  { unfold recomputed.
    pose proof (validateCalculationInput_first_failing (VObject o)) as Hv.
    destruct (js_gt _ _); [|split; [intros [? [=]]|intros [[=] _]]].
    destruct (first_failing _ _) as [f|].
    - rewrite (calculateWatchTime_invalid _ _ Hv). cbn [fst].
      split; [intros [? [=]]|intros [_ [=]]].
    - destruct (calculateWatchTime_valid (VObject o)) as [r ->];
        [now rewrite Hv|].
      cbn [fst]. split; eauto. }
  unfold canCalculateTime, usable_duration, js_le.
  cbn [ToBoolean typeof negb orb property bool_decide].
  split.
  - intros [Hpos Hnone]. apply (first_failing_none o Hpos) in Hnone.
    destruct Hnone as [(n & Hn & Hmax) Hduration].
    rewrite He in Hpos, Hn. rewrite Hd in Hduration. unfold js_or in *.
    destruct (truthy (get animeData "episodes")) eqn:Htruthy;
      [|rewrite Hn in Hpos; injection Hn as <-; discriminate].
    rewrite Hn in *. unfold js_gt in *. cbn [ToNumber typeof_prim] in *.
    destruct (above_zero n Hpos) as (Hnan & _).
    rewrite (le_not_gt n 10000 Hnan), Hmax, Hpos.
    split; [reflexivity|]. split; [reflexivity|].
    destruct (truthy (get animeData "duration")) eqn:Hdt; [|reflexivity].
    destruct (get animeData "duration") as [| |b|m|t m]; try tauto.
    destruct Hduration as [Hm0 Hm].
    pose proof (truthy_number m Hdt) as Hmnan.
    rewrite (le_not_gt m 1440 Hmnan), Hm.
    rewrite (le_not_gt m 0 Hmnan) in Hm0.
    apply negb_false_iff in Hm0. now rewrite Hm0.
  - intros (Hcan & Hmax & Hduration).
    destruct (get animeData "episodes") as [| |b|n|t n] eqn:Hn;
      try discriminate.
    unfold js_gt in *. cbn [ToNumber typeof_prim] in *.
    assert (Num.gt n (Fin 0) = true) as Hpos.
    { now destruct (Num.gt n (Fin 0)). }
    destruct (above_zero n Hpos) as (Hnan & Htruthy & _).
    assert (get o "episodes" = PNum n) as He'
      by (rewrite He; unfold js_or; now rewrite Htruthy).
    split; [now rewrite He'|].
    apply first_failing_none; [now rewrite He'|].
    split.
    + exists n. split; [exact He'|].
      rewrite (le_not_gt n 10000 Hnan) in Hmax.
      now apply negb_true_iff in Hmax.
    + rewrite Hd. unfold js_or.
      destruct (truthy (get animeData "duration")) eqn:Hdt.
      * destruct (get animeData "duration") as [| |b|m|t m];
          try discriminate.
        cbn [negb orb] in Hduration.
        apply andb_true_iff in Hduration as [Hm0 Hm].
        pose proof (truthy_number m Hdt) as Hmnan.
        rewrite (le_not_gt m 1440 Hmnan) in Hm.
        rewrite (le_not_gt m 0 Hmnan), Hm0.
        apply negb_true_iff in Hm. now split.
      * split; reflexivity.
Qed.

Lemma updateAnime_result_iff_witness :
  is_Some
    (currentResult
       (snd (updateAnime
               (VObject (<["episodes" := PNum (Fin 12)]>
                         (<["duration" := PNull]> ∅)))
               (createTimeCalculator PUndefined)))).
Proof.
  apply (proj2 (updateAnime_result_iff (createTimeCalculator PUndefined)
                  (<["episodes" := PNum (Fin 12)]>
                   (<["duration" := PNull]> ∅)))).
  repeat split.
Defined.

(** ** The two tests of whether a time can be calculated *)

(** X15.  The test of the lookup module accepts whatever the test of the
    calculation engine accepts, and they differ exactly on data whose
    episode count is not a number and yet counts as above 0 (the boolean
    true, a numeric string such as "12"): the lookup module accepts these
    and the calculation engine does not. *)
Theorem canCalculateTime_agree (v : value) :
  AnimeApi.canCalculateTime v
  = canCalculateTime v
    || (bool_decide (typeof_prim (property v "episodes") <> TNumber)
        && js_gt (property v "episodes") (PNum (Fin 0))).
Proof.
  unfold AnimeApi.canCalculateTime, canCalculateTime.
  destruct v as [p|o|f].
  - cbn [ToBoolean typeof property].
    destruct (truthy p); cbn [negb orb]; [|reflexivity].
    now destruct (bool_decide (typeof_prim p ≠ TObject)).
  - cbn [ToBoolean typeof property negb orb].
    rewrite (bool_decide_eq_false_2 (TObject ≠ TObject)) by (intros H; now apply H).
    destruct (get o "episodes") as [| |b|n|s n]; try reflexivity.
    cbn [js_strict_eq typeof_prim negb andb].
    now destruct (js_gt (PNum n) (PNum (Fin 0))).
  - reflexivity.
Qed.

(** ** validateAndNormalizeAnimeData *)

(** Defaulting twice is defaulting once. *)
Lemma json_or_twice (a d : AnimeApi.json) :
  AnimeApi.json_or (AnimeApi.json_or a d) d = AnimeApi.json_or a d.
Proof.
  unfold AnimeApi.json_or.
  destruct (AnimeApi.json_truthy a) eqn:Ha; [now rewrite Ha|].
  now destruct (AnimeApi.json_truthy d).
Qed.

(** A defaulted value is the default or truthy. *)
Lemma json_or_truthy (a d : AnimeApi.json) :
  AnimeApi.json_or a d = d
  \/ AnimeApi.json_truthy (AnimeApi.json_or a d) = true.
Proof.
  unfold AnimeApi.json_or.
  destruct (AnimeApi.json_truthy a) eqn:Ha; [now right|now left].
Qed.

(** X16.  Normalising is idempotent: data that was normalised, handed
    back as the [Media] of a response, is returned as it is. *)
Theorem validateAndNormalizeAnimeData_twice (data : AnimeApi.json) :
  AnimeApi.validateAndNormalizeAnimeData data <> AnimeApi.JNull ->
  AnimeApi.validateAndNormalizeAnimeData
    (AnimeApi.JObj
       {["Media" := AnimeApi.validateAndNormalizeAnimeData data]})
  = AnimeApi.validateAndNormalizeAnimeData data.
Proof.
  unfold AnimeApi.validateAndNormalizeAnimeData at 1 3 4.
  destruct (negb (AnimeApi.json_truthy data) || _); [congruence|].
  cbv zeta.
  destruct (AnimeApi.json_truthy
              (AnimeApi.json_get (AnimeApi.json_get data "Media") "id"))
    eqn:Hid; [|cbn; congruence].
  destruct (AnimeApi.json_truthy
              (AnimeApi.json_get (AnimeApi.json_get data "Media") "title"))
    eqn:Htitle; [|cbn; congruence].
  cbn [negb orb]. intros _.
  set (anime := AnimeApi.json_get data "Media") in *.
  unfold AnimeApi.validateAndNormalizeAnimeData.
  cbn [AnimeApi.json_truthy AnimeApi.json_get negb orb].
  rewrite lookup_singleton_eq.
  cbn [from_option id AnimeApi.json_truthy negb orb AnimeApi.json_get
       AnimeApi.json_get_optional].
  repeat (rewrite ?lookup_insert_eq; rewrite ?lookup_insert_ne by done).
  cbn [from_option id AnimeApi.json_truthy negb orb AnimeApi.json_get
       AnimeApi.json_get_optional].
  rewrite Hid. cbn [negb orb].
  repeat (rewrite ?lookup_insert_eq; rewrite ?lookup_insert_ne by done).
  cbn [from_option id]. now rewrite !json_or_twice.
Qed.

Lemma validateAndNormalizeAnimeData_twice_witness :
  AnimeApi.validateAndNormalizeAnimeData
    (AnimeApi.JObj
       {["Media" :=
           AnimeApi.validateAndNormalizeAnimeData
             (AnimeApi.JObj
                {["Media" :=
                    AnimeApi.JObj
                      (<["id" := AnimeApi.JNum (Fin 16498)]>
                       (<["title" := AnimeApi.JObj ∅]>
                        (<["episodes" := AnimeApi.JNum (Fin 0)]> ∅)))]})]})
  = AnimeApi.validateAndNormalizeAnimeData
      (AnimeApi.JObj
         {["Media" :=
             AnimeApi.JObj
               (<["id" := AnimeApi.JNum (Fin 16498)]>
                (<["title" := AnimeApi.JObj ∅]>
                 (<["episodes" := AnimeApi.JNum (Fin 0)]> ∅)))]}).
Proof.
  apply validateAndNormalizeAnimeData_twice. vm_compute. discriminate.
Defined.

(** X17.  What normalising returns is null or a record in which nothing
    is left undefined: the id is the truthy id that was given; the romaji
    and native titles and the status are truthy; the English title, the
    episode count, the duration and the description are each null or
    truthy (an episode count of 0 becomes null); the two cover images are
    each the empty string or truthy. *)
Theorem validateAndNormalizeAnimeData_shape (data : AnimeApi.json) :
  AnimeApi.validateAndNormalizeAnimeData data = AnimeApi.JNull
  \/ (let out := AnimeApi.validateAndNormalizeAnimeData data in
      AnimeApi.json_get out "id"
        = AnimeApi.json_get (AnimeApi.json_get data "Media") "id"
      /\ AnimeApi.json_truthy (AnimeApi.json_get out "id") = true
      /\ (forall key, key ∈ ["romaji"; "native"] ->
            AnimeApi.json_truthy
              (AnimeApi.json_get (AnimeApi.json_get out "title") key) = true)
      /\ AnimeApi.json_truthy (AnimeApi.json_get out "status") = true
      /\ (AnimeApi.json_get (AnimeApi.json_get out "title") "english"
            = AnimeApi.JNull
          \/ AnimeApi.json_truthy
               (AnimeApi.json_get (AnimeApi.json_get out "title") "english")
             = true)
      /\ (forall key, key ∈ ["episodes"; "duration"; "description"] ->
            AnimeApi.json_get out key = AnimeApi.JNull
            \/ AnimeApi.json_truthy (AnimeApi.json_get out key) = true)
      /\ (forall key, key ∈ ["large"; "medium"] ->
            AnimeApi.json_get (AnimeApi.json_get out "coverImage") key
              = AnimeApi.JStr ""
            \/ AnimeApi.json_truthy
                 (AnimeApi.json_get (AnimeApi.json_get out "coverImage") key)
               = true)).
Proof.
  unfold AnimeApi.validateAndNormalizeAnimeData.
  destruct (negb (AnimeApi.json_truthy data) || _); [now left|].
  cbv zeta.
  destruct (AnimeApi.json_truthy
              (AnimeApi.json_get (AnimeApi.json_get data "Media") "id"))
    eqn:Hid; [|now left].
  destruct (AnimeApi.json_truthy
              (AnimeApi.json_get (AnimeApi.json_get data "Media") "title"));
    [|now left].
  right. cbn [negb orb AnimeApi.json_get].
  set (anime := AnimeApi.json_get data "Media") in *.
  assert (forall a d,
            AnimeApi.json_truthy d = true ->
            AnimeApi.json_truthy (AnimeApi.json_or a d) = true) as Hdefault.
  { intros a d Hd. destruct (json_or_truthy a d) as [->|H]; [exact Hd|exact H]. }
  split; [now rewrite lookup_insert_eq|].
  split; [now rewrite lookup_insert_eq|].
  split; [|split; [|split; [|split]]].
  - intros key Hkey.
    rewrite lookup_insert_ne, lookup_insert_eq by done.
    cbn [from_option id AnimeApi.json_get].
    apply elem_of_cons in Hkey as [->|Hkey].
    + rewrite lookup_insert_eq. now apply Hdefault.
    + apply list_elem_of_singleton in Hkey as ->.
      rewrite !lookup_insert_ne, lookup_insert_eq by done.
      now apply Hdefault.
  - rewrite !lookup_insert_ne, lookup_insert_eq by done.
    now apply Hdefault.
  - rewrite lookup_insert_ne, lookup_insert_eq by done.
    cbn [from_option id AnimeApi.json_get].
    rewrite lookup_insert_ne, lookup_insert_eq by done.
    apply json_or_truthy.
  - intros key Hkey.
    apply elem_of_cons in Hkey as [->|Hkey];
      [|apply elem_of_cons in Hkey as [->|Hkey];
        [|apply list_elem_of_singleton in Hkey as ->]];
      rewrite !lookup_insert_ne, lookup_insert_eq by done;
      apply json_or_truthy.
  - intros key Hkey.
    rewrite !lookup_insert_ne, lookup_insert_eq by done.
    cbn [from_option id AnimeApi.json_get].
    apply elem_of_cons in Hkey as [->|Hkey];
      [|apply list_elem_of_singleton in Hkey as ->];
      rewrite ?lookup_insert_ne, lookup_insert_eq by done;
      apply json_or_truthy.
Qed.

Lemma validateAndNormalizeAnimeData_shape_witness :
  AnimeApi.json_get
    (AnimeApi.validateAndNormalizeAnimeData
       (AnimeApi.JObj
          {["Media" :=
              AnimeApi.JObj
                (<["id" := AnimeApi.JNum (Fin 16498)]>
                 (<["title" := AnimeApi.JObj ∅]>
                  (<["episodes" := AnimeApi.JNum (Fin 0)]> ∅)))]}))
    "episodes"
  = AnimeApi.JNull
  \/ AnimeApi.json_truthy
       (AnimeApi.json_get
          (AnimeApi.validateAndNormalizeAnimeData
             (AnimeApi.JObj
                {["Media" :=
                    AnimeApi.JObj
                      (<["id" := AnimeApi.JNum (Fin 16498)]>
                       (<["title" := AnimeApi.JObj ∅]>
                        (<["episodes" := AnimeApi.JNum (Fin 0)]> ∅)))]}))
          "episodes")
     = true.
Proof.
  destruct (validateAndNormalizeAnimeData_shape
              (AnimeApi.JObj
                 {["Media" :=
                     AnimeApi.JObj
                       (<["id" := AnimeApi.JNum (Fin 16498)]>
                        (<["title" := AnimeApi.JObj ∅]>
                         (<["episodes" := AnimeApi.JNum (Fin 0)]> ∅)))]}))
    as [Hnull|(_ & _ & _ & _ & _ & Hfields & _)].
  - vm_compute in Hnull. discriminate.
  - apply Hfields. compute_done.
Defined.
